(** * Pastebin-Lite: expiry and view accounting

    A shallow embedding of [src/lib/time.ts], [src/lib/paste-service.ts],
    the JSON route [GET /api/pastes/:id] and the HTML page [/p/:id],
    followed by the properties of the paste life cycle.

    Conventions of the embedding.
    - An instant is a number of milliseconds since the Unix epoch, a [Z].
    - A JavaScript [Date] is either a valid instant or the Invalid Date
      (time value NaN).
    - The numbers that flow through this code are integers or NaN, so a
      JavaScript number is an [option Z] with [None] for NaN.
    - The table behind [prisma.paste] is a finite map from ids to rows.
      [fetchPaste], [getPasteContent] and [createPaste] are embedded as
      functions from the table to a result and the next table: a call
      that runs from its first store access to its last with no other
      call in between.  Calls that overlap are embedded separately, in
      the section on overlapping calls: there a call is split at its two
      awaits, and a schedule says whose step comes next.
    - [viewCount] and [maxViews] are integers; the width of the Int
      column is not modelled, and neither is a store that fails for
      reasons of its own (connection, timeout). *)

From Stdlib Require Import ZArith Ascii String List Lia Permutation.
From stdpp Require Import base option gmap strings fin_maps.

Open Scope string_scope.
Open Scope Z_scope.

(** ** JavaScript values used by the code *)

Module JS.

(** A JavaScript number restricted to what occurs here: an integer, or NaN. *)
Definition Number := option Z.

Definition NaN : Number := None.

(** [Date]: a valid time value, or the Invalid Date. *)
Inductive Date : Type :=
| ValidDate (ms : Z)
| InvalidDate.

(** The largest magnitude of a time value (ECMA-262, TimeClip). *)
Definition maxTime : Z := 8640000000000000.

(** [new Date(v)] for a number [v]: TimeClip. *)
Definition newDate (v : Number) : Date :=
  match v with
  | None => InvalidDate
  | Some z => if Z.abs z <=? maxTime then ValidDate z else InvalidDate
  end.

(** [d.getTime()] *)
Definition getTime (d : Date) : Number :=
  match d with
  | ValidDate ms => Some ms
  | InvalidDate => NaN
  end.

(** [a + b] on numbers: NaN is absorbing. *)
Definition add (a b : Number) : Number :=
  match a, b with
  | Some x, Some y => Some (x + y)
  | _, _ => NaN
  end.

(** [a >= b] on two dates: both are converted to their time values, and a
    comparison with NaN is false. *)
Definition date_ge (a b : Date) : bool :=
  match a, b with
  | ValidDate x, ValidDate y => y <=? x
  | _, _ => false
  end.

Definition isValid (d : Date) : bool :=
  match d with
  | ValidDate _ => true
  | InvalidDate => false
  end.

(** White space that [parseInt] skips, among the code units a header value
    can hold (0 to 255): TAB, LF, VT, FF, CR, SP and NBSP. *)
Definition isWhiteSpace (c : ascii) : bool :=
  let n := nat_of_ascii c in
  ((9 <=? n)%nat && (n <=? 13)%nat) || (n =? 32)%nat || (n =? 160)%nat.

Fixpoint trimStart (s : string) : string :=
  match s with
  | String c r => if isWhiteSpace c then trimStart r else s
  | EmptyString => s
  end.

Definition digitValue (c : ascii) : option Z :=
  let n := nat_of_ascii c in
  if ((48 <=? n)%nat && (n <=? 57)%nat)%bool
  then Some (Z.of_nat n - 48) else None.

(** The value of the longest prefix of decimal digits; [acc] is the value
    read so far, [None] while no digit has been read. *)
Fixpoint parseDigits (s : string) (acc : option Z) : option Z :=
  match s with
  | String c r =>
      match digitValue c with
      | Some d => parseDigits r (Some (10 * default 0 acc + d))
      | None => acc
      end
  | EmptyString => acc
  end.

(** [parseInt(s, 10)]: leading white space is skipped, one sign is read,
    then the longest run of decimal digits; what follows is ignored, and no
    digit at all gives NaN. *)
Definition parseInt10 (s : string) : Number :=
  match trimStart s with
  | String "-" r => Z.opp <$> parseDigits r None
  | String "+" r => parseDigits r None
  | t => parseDigits t None
  end.

(** Truthiness of a string or null: null and the empty string are falsy. *)
Definition truthy (s : option string) : bool :=
  match s with
  | Some (String _ _) => true
  | _ => false
  end.

(** [n] decimal digits of [z], least significant last, in front of [acc]. *)
Fixpoint digitsOf (n : nat) (z : Z) (acc : string) : string :=
  match n with
  | O => acc
  | S n' =>
      digitsOf n' (z / 10)
        (String (ascii_of_nat (48 + Z.to_nat (z mod 10))) acc)
  end.

Definition pad (n : nat) (z : Z) : string := digitsOf n z "".

(** Year, month and day of a day number counted from 1970-01-01
    (proleptic Gregorian calendar). *)
Definition civilFromDays (days : Z) : Z * Z * Z :=
  let z := days + 719468 in
  let era := z / 146097 in
  let doe := z - era * 146097 in
  let yoe := (doe - doe / 1460 + doe / 36524 - doe / 146096) / 365 in
  let doy := doe - (365 * yoe + yoe / 4 - yoe / 100) in
  let mp := (5 * doy + 2) / 153 in
  let d := doy - (153 * mp + 2) / 5 + 1 in
  let m := if mp <? 10 then mp + 3 else mp - 9 in
  let y := yoe + era * 400 + (if m <=? 2 then 1 else 0) in
  (y, m, d).

(** [d.toISOString()] of a valid date with time value [ms]:
    YYYY-MM-DDTHH:mm:ss.sssZ, the year with a sign and six digits outside
    0..9999. *)
Definition toISOString (ms : Z) : string :=
  let '(y, m, d) := civilFromDays (ms / 86400000) in
  let t := ms mod 86400000 in
  let year :=
    if (0 <=? y) && (y <=? 9999) then pad 4 y
    else (if y <? 0 then "-" else "+") ++ pad 6 (Z.abs y) in
  year ++ "-" ++ pad 2 m ++ "-" ++ pad 2 d ++ "T"
    ++ pad 2 (t / 3600000) ++ ":" ++ pad 2 (t / 60000 mod 60) ++ ":"
    ++ pad 2 (t / 1000 mod 60) ++ "." ++ pad 3 (t mod 1000) ++ "Z".

End JS.

Import JS.

(** ** src/lib/time.ts *)

(** [process.env]: variable name to value. *)
Abbreviation ProcessEnv := (gmap string string).

(** A [Headers] object: lower-cased header name to its value. *)
Abbreviation Headers := (gmap string string).

(** [getCurrentTime(headers)].  [wallClock] is what [new Date()] would
    read from the system clock at the call. *)
Definition getCurrentTime (env : ProcessEnv) (wallClock : Z) (headers : Headers) : Date :=
  if decide (env !! "TEST_MODE" = Some "1") then
    let testNowMs := headers !! "x-test-now-ms" in
    if truthy testNowMs
    then newDate (parseInt10 (default "" testNowMs))
    else ValidDate wallClock
  else ValidDate wallClock.

(** [calculateExpiresAt(ttlSeconds, now)] *)
Definition calculateExpiresAt (ttlSeconds : Z) (now : Date) : Date :=
  newDate (add (getTime now) (Some (ttlSeconds * 1000))).

(** [isPasteExpired(expiresAt, now)].  A [Date] object is truthy even when
    invalid, so only [null] takes the first branch. *)
Definition isPasteExpired (expiresAt : option Date) (now : Date) : bool :=
  match expiresAt with
  | None => false
  | Some e => date_ge now e
  end.

(** ** The Paste table

    The schema of [prisma/schema.prisma] as design.md gives it:
    [id String @id @default(cuid())], [content String],
    [createdAt DateTime @default(now())], [expiresAt DateTime?],
    [maxViews Int?], [viewCount Int @default(0)].
    A row holds the columns other than the primary key; the key of the
    map is the [id].  A DateTime column holds an instant, never the
    Invalid Date. *)

Module Paste.
Record t : Type := mk {
  content : string;
  createdAt : Z;
  expiresAt : option Z;
  maxViews : option Z;
  viewCount : Z
}.
End Paste.

Abbreviation Table := (gmap string Paste.t).

(** What a promise settles to: a value, or a rejection (an exception was
    thrown). *)
Inductive Result (A : Type) : Type :=
| Resolved (a : A)
| Rejected.
Arguments Resolved {A} a.
Arguments Rejected {A}.

(** Code that runs against the transaction client [tx]: it reads and
    writes the table, or throws ([None]). *)
Definition Tx (A : Type) : Type := Table -> option (A * Table).

#[global] Instance Tx_ret : MRet Tx := fun A a tx => Some (a, tx).

#[global] Instance Tx_bind : MBind Tx := fun A B k m tx =>
  match m tx with
  | Some (a, tx') => k a tx'
  | None => None
  end.

(** [prisma.$transaction(body)], for a body that runs from start to end
    with no other call in between: the writes of a body that throws are
    rolled back. *)
Definition transaction {A : Type} (body : Tx A) (db : Table) : Result A * Table :=
  match body db with
  | Some (a, db') => (Resolved a, db')
  | None => (Rejected, db)
  end.

(** [tx.paste.findUnique({ where: { id } })] *)
Definition findUnique (id : string) : Tx (option Paste.t) :=
  fun tx => Some (tx !! id, tx).

(** A row after [viewCount: { increment: 1 }]. *)
Definition increment (p : Paste.t) : Paste.t :=
  Paste.mk (Paste.content p) (Paste.createdAt p) (Paste.expiresAt p)
    (Paste.maxViews p) (Paste.viewCount p + 1).

(** [tx.paste.update({ where: { id }, data: { viewCount: { increment: 1 } } })]:
    the updated row, read and incremented in one statement; throws when no
    row has this id.  Other ways for the store to fail are not modelled. *)
Definition update_increment (id : string) : Tx Paste.t :=
  fun tx =>
    match tx !! id with
    | Some p => Some (increment p, <[id := increment p]> tx)
    | None => None
    end.

(** What the store fills in at an insert: the [cuid()] it draws and the
    [now()] it reads. *)
Record StoreDefaults : Type := {
  cuid : string;
  dbNow : Z
}.

(** [prisma.paste.create({ data: { content, expiresAt, maxViews } })]:
    the new id and row.  It throws when the id is taken (unique
    constraint) or when the date handed over is the Invalid Date. *)
Definition create (dflt : StoreDefaults) (content : string)
    (expiresAt : option Date) (maxViews : option Z) : Tx (string * Paste.t) :=
  fun tx =>
    match tx !! cuid dflt with
    | Some _ => None
    | None =>
        match expiresAt with
        | Some InvalidDate => None
        | _ =>
            let row := Paste.mk content (dbNow dflt)
                         (expiresAt ≫= getTime) maxViews 0 in
            Some ((cuid dflt, row), <[cuid dflt := row]> tx)
        end
    end.

(** ** src/lib/paste-service.ts *)

(** [ValidatedCreatePasteInput] *)
Module CreatePasteInput.
Record t : Type := mk {
  content : string;
  ttl_seconds : option Z;
  max_views : option Z
}.
End CreatePasteInput.

Module PasteCreateResponse.
Record t : Type := mk {
  id : string;
  url : string
}.
End PasteCreateResponse.

Module PasteFetchResponse.
Record t : Type := mk {
  content : string;
  remaining_views : option Z;
  expires_at : option string
}.
End PasteFetchResponse.

(** [createPaste(input, now, baseUrl)].  [input.ttl_seconds ? .. : null]
    is falsy for an absent value and for 0. *)
Definition createPaste (input : CreatePasteInput.t) (now : Date) (baseUrl : string)
    (dflt : StoreDefaults) (db : Table) : Result PasteCreateResponse.t * Table :=
  let expiresAt :=
    match CreatePasteInput.ttl_seconds input with
    | Some ttl => if ttl =? 0 then None else Some (calculateExpiresAt ttl now)
    | None => None
    end in
  match create dflt (CreatePasteInput.content input) expiresAt
          (CreatePasteInput.max_views input) db with
  | Some ((id, _), db') =>
      (Resolved (PasteCreateResponse.mk id (baseUrl ++ "/p/" ++ id)), db')
  | None => (Rejected, db)
  end.

(** [paste.maxViews !== null && paste.viewCount >= paste.maxViews] *)
Definition maxViewsReached (paste : Paste.t) : bool :=
  match Paste.maxViews paste with
  | Some m => m <=? Paste.viewCount paste
  | None => false
  end.

(** [fetchPaste(id, now)] *)
Definition fetchPaste (id : string) (now : Date) (db : Table)
    : Result (option PasteFetchResponse.t) * Table :=
  transaction (
    paste ← findUnique id;
    match paste with
    | None => mret None
    | Some paste =>
        if isPasteExpired (ValidDate <$> Paste.expiresAt paste) now then mret None
        else if maxViewsReached paste then mret None
        else
          updatedPaste ← update_increment id;
          let remaining_views :=
            match Paste.maxViews updatedPaste with
            | Some m => Some (Z.max 0 (m - Paste.viewCount updatedPaste))
            | None => None
            end in
          mret (Some (PasteFetchResponse.mk (Paste.content updatedPaste)
                        remaining_views
                        (toISOString <$> Paste.expiresAt updatedPaste)))
    end) db.

(** [getPasteContent(id, now)] *)
Definition getPasteContent (id : string) (now : Date) (db : Table)
    : Result (option string) * Table :=
  transaction (
    paste ← findUnique id;
    match paste with
    | None => mret None
    | Some paste =>
        if isPasteExpired (ValidDate <$> Paste.expiresAt paste) now then mret None
        else if maxViewsReached paste then mret None
        else
          updatedPaste ← update_increment id;
          mret (Some (Paste.content updatedPaste))
    end) db.

(** ** The two read routes *)

(** What a handler sees of a request: its headers and the [id] segment of
    the path. *)
Record Request : Type := {
  headers : Headers;
  params_id : string
}.

Inductive Body : Type :=
| PasteBody (result : PasteFetchResponse.t)
| ErrorBody (error : string).

(** [NextResponse.json(body, { status })] *)
Record Response : Type := {
  status : Z;
  body : Body
}.

(** The response [GET] builds from what [fetchPaste] settled to: 404 for
    null, 200 with the result, and 500 from the [catch] block. *)
Definition respond (result : Result (option PasteFetchResponse.t)) : Response :=
  match result with
  | Resolved None => {| status := 404; body := ErrorBody "Paste not found" |}
  | Resolved (Some result) => {| status := 200; body := PasteBody result |}
  | Rejected => {| status := 500; body := ErrorBody "Internal server error" |}
  end.

(** [GET /api/pastes/[id]] *)
Definition GET (env : ProcessEnv) (wallClock : Z) (request : Request) (db : Table)
    : Response * Table :=
  let id := params_id request in
  let now := getCurrentTime env wallClock (headers request) in
  let '(result, db') := fetchPaste id now db in
  (respond result, db').

(** What the page [/p/[id]] renders: the content inside [<pre>], the 404
    page of [notFound()], or the error boundary when the service throws. *)
Inductive Page : Type :=
| PasteView (content : string)
| NotFound
| ErrorBoundary.

(** [PastePage({ params })]: [now] is [new Date()]. *)
Definition PastePage (wallClock : Z) (id : string) (db : Table) : Page * Table :=
  let now := ValidDate wallClock in
  match getPasteContent id now db with
  | (Resolved None, db') => (NotFound, db')
  | (Resolved (Some content), db') => (PasteView content, db')
  | (Rejected, db') => (ErrorBoundary, db')
  end.

(** The App Router: which handler serves a read request.  The process
    environment and the request headers are there for both; the page takes
    the path parameter only. *)
Inductive Route : Type :=
| ApiPastesId
| PId.

Inductive Served : Type :=
| ServedJson (response : Response)
| ServedHtml (page : Page).

Definition serve (route : Route) (env : ProcessEnv) (wallClock : Z)
    (request : Request) (db : Table) : Served * Table :=
  match route with
  | ApiPastesId =>
      let '(response, db') := GET env wallClock request db in
      (ServedJson response, db')
  | PId =>
      let '(page, db') := PastePage wallClock (params_id request) db in
      (ServedHtml page, db')
  end.

(** ** Histories of service calls *)

Inductive Call : Type :=
| CallCreatePaste (input : CreatePasteInput.t) (now : Date) (baseUrl : string)
    (dflt : StoreDefaults)
| CallFetchPaste (id : string) (now : Date)
| CallGetPasteContent (id : string) (now : Date).

(** The table after one call. *)
Definition call (c : Call) (db : Table) : Table :=
  match c with
  | CallCreatePaste input now baseUrl dflt => (createPaste input now baseUrl dflt db).2
  | CallFetchPaste id now => (fetchPaste id now db).2
  | CallGetPasteContent id now => (getPasteContent id now db).2
  end.

(** The table after a history of calls, oldest first. *)
Definition run (calls : list Call) (db : Table) : Table :=
  fold_left (fun db c => call c db) calls db.

(** Every table a history passes through, the first and the last
    included. *)
Fixpoint trace (calls : list Call) (db : Table) : list Table :=
  match calls with
  | [] => [db]
  | c :: calls' => db :: trace calls' (call c db)
  end.

(** [fetchPaste] called once per instant of [nows], one transaction after
    the other: the results, oldest first, and the final table. *)
Fixpoint fetchAll (id : string) (nows : list Date) (db : Table)
    : list (Result (option PasteFetchResponse.t)) * Table :=
  match nows with
  | [] => ([], db)
  | now :: nows' =>
      let '(r, db') := fetchPaste id now db in
      let '(rs, db'') := fetchAll id nows' db' in
      (r :: rs, db'')
  end.

Definition isConsumed {A : Type} (r : Result (option A)) : bool :=
  match r with
  | Resolved (Some _) => true
  | _ => false
  end.

Definition isUnavailable {A : Type} (r : Result (option A)) : bool :=
  match r with
  | Resolved None => true
  | _ => false
  end.

(** ** The words of the specification *)

(** Time-expired: [now >= expiresAt] for a present [expiresAt]. *)
Definition TimeExpired (p : Paste.t) (now : Date) : Prop :=
  exists T n, Paste.expiresAt p = Some T /\ now = ValidDate n /\ T <= n.

(** View-exhausted: [maxViews] present and [viewCount >= maxViews]. *)
Definition ViewExhausted (p : Paste.t) : Prop :=
  exists M, Paste.maxViews p = Some M /\ M <= Paste.viewCount p.

Definition Available (p : Paste.t) (now : Date) : Prop :=
  ~ TimeExpired p now /\ ~ ViewExhausted p.

(** The result of a successful consume, in the words of the specification:
    the stored content, [max(0, maxViews - newViewCount)] when [maxViews]
    is present, and the stored [expiresAt]. *)
Definition consumed (p : Paste.t) : PasteFetchResponse.t :=
  PasteFetchResponse.mk (Paste.content p)
    ((fun M => Z.max 0 (M - (Paste.viewCount p + 1))) <$> Paste.maxViews p)
    (toISOString <$> Paste.expiresAt p).

(** The row of [id] has the budget [M] and a view count within it. *)
Definition withinBudget (id : string) (M : Z) (db : Table) : Prop :=
  exists p, db !! id = Some p /\ Paste.maxViews p = Some M /\
            0 <= Paste.viewCount p <= M.

(** How many calls of a batch resolved to a result, and how many to null. *)
Definition countConsumed (rs : list (Result (option PasteFetchResponse.t))) : Z :=
  Z.of_nat (length (List.filter isConsumed rs)).

Definition countUnavailable (rs : list (Result (option PasteFetchResponse.t))) : Z :=
  Z.of_nat (length (List.filter isUnavailable rs)).

(** How many calls of a history consumed a view of [id]: the calls of
    [fetchPaste] and [getPasteContent] on [id] that resolved to a value
    other than null. *)
Definition consumedBy (id : string) (c : Call) (db : Table) : bool :=
  match c with
  | CallCreatePaste _ _ _ _ => false
  | CallFetchPaste id' now =>
      bool_decide (id' = id) && isConsumed (fetchPaste id' now db).1
  | CallGetPasteContent id' now =>
      bool_decide (id' = id) && isConsumed (getPasteContent id' now db).1
  end.

Fixpoint consumes (id : string) (calls : list Call) (db : Table) : Z :=
  match calls with
  | [] => 0
  | c :: calls' =>
      (if consumedBy id c db then 1 else 0) + consumes id calls' (call c db)
  end.

(** ** POST /api/pastes

    [validateCreatePaste] lives in [src/lib/validation.ts]; the handler
    takes it as a parameter here, with the type its callers and tests
    show: validation errors, or the validated input. *)

Inductive PostBody (E : Type) : Type :=
| CreatedBody (result : PasteCreateResponse.t)
| PostErrorBody (error : string) (details : option E).
Arguments CreatedBody {E} result.
Arguments PostErrorBody {E} error details.

Record PostResponse (E : Type) : Type := {
  post_status : Z;
  post_body : PostBody E
}.
Arguments post_status {E} _.
Arguments post_body {E} _.

(** [a || b] for a header value [a] and a string [b]. *)
Definition orElse (a : option string) (b : string) : string :=
  if truthy a then default "" a else b.

(** [POST(request)].  [body] is what [request.json()] gives, [None] when
    it throws. *)
Definition POST {Json E : Type}
    (validateCreatePaste : Json -> E + CreatePasteInput.t)
    (env : ProcessEnv) (wallClock : Z) (hdrs : Headers) (body : option Json)
    (dflt : StoreDefaults) (db : Table) : PostResponse E * Table :=
  match body with
  | None =>
      ({| post_status := 400;
          post_body := PostErrorBody "Invalid JSON body" None |}, db)
  | Some body =>
      match validateCreatePaste body with
      | inl errors =>
          ({| post_status := 400;
              post_body := PostErrorBody "Validation failed" (Some errors) |}, db)
      | inr data =>
          let now := getCurrentTime env wallClock hdrs in
          let protocol := orElse (hdrs !! "x-forwarded-proto") "http" in
          let host := orElse (hdrs !! "host") "localhost:3000" in
          let baseUrl := protocol ++ "://" ++ host in
          match createPaste data now baseUrl dflt db with
          | (Resolved result, db') =>
              ({| post_status := 201; post_body := CreatedBody result |}, db')
          | (Rejected, db') =>
              ({| post_status := 500;
                  post_body := PostErrorBody "Internal server error" None |}, db')
          end
      end
  end.

(** ** src/lib/db.ts *)

(** What [new PrismaClient({ adapter, log })] is built from. *)
Record PrismaClient : Type := {
  connectionString : string;
  log : list string
}.

(** [a || b] for two values that are strings or undefined. *)
Definition orUndefined (a b : option string) : option string :=
  if truthy a then a else b.

(** [createPrismaClient()]; [None] when it throws. *)
Definition createPrismaClient (env : ProcessEnv) : option PrismaClient :=
  let connectionString :=
    orUndefined (env !! "POSTGRES_PRISMA_URL")
      (orUndefined (env !! "POSTGRES_URL") (env !! "DATABASE_URL")) in
  if truthy connectionString then
    Some {| connectionString := default "" connectionString;
            log := if decide (env !! "NODE_ENV" = Some "development")
                   then ["error"; "warn"] else ["error"] |}
  else None.

(** The module body: the exported [prisma] and [globalForPrisma.prisma]
    afterwards; [None] when [createPrismaClient] throws. *)
Definition loadDb (env : ProcessEnv) (globalPrisma : option PrismaClient)
    : option (PrismaClient * option PrismaClient) :=
  match (match globalPrisma with
         | Some client => Some client
         | None => createPrismaClient env
         end) with
  | Some prisma =>
      Some (prisma,
            if decide (env !! "NODE_ENV" = Some "production")
            then globalPrisma else Some prisma)
  | None => None
  end.

(** ** Overlapping calls

    The callback of [fetchPaste] and of [getPasteContent] awaits the
    store twice: at [findUnique], and, once the two checks have passed, at
    [update].  The callback sets no isolation level and takes no lock, so
    between the two awaits of one call another call may read or write the
    same row.  A pending call is where its callback stands; a schedule
    names, step by step, the call that goes on. *)

Inductive Consumer : Type :=
| ViaFetchPaste
| ViaGetPasteContent.

Inductive Settlement : Type :=
| FetchSettled (result : Result (option PasteFetchResponse.t))
| ContentSettled (result : Result (option string)).

Inductive Pending : Type :=
| AtFindUnique (f : Consumer) (id : string) (now : Date)
| AtUpdate (f : Consumer) (id : string)
| Settled (s : Settlement).

(** What [fetchPaste] returns from [updatedPaste]. *)
Definition responseOf (updatedPaste : Paste.t) : PasteFetchResponse.t :=
  PasteFetchResponse.mk (Paste.content updatedPaste)
    match Paste.maxViews updatedPaste with
    | Some m => Some (Z.max 0 (m - Paste.viewCount updatedPaste))
    | None => None
    end
    (toISOString <$> Paste.expiresAt updatedPaste).

Definition settleNull (f : Consumer) : Settlement :=
  match f with
  | ViaFetchPaste => FetchSettled (Resolved None)
  | ViaGetPasteContent => ContentSettled (Resolved None)
  end.

Definition settleRejected (f : Consumer) : Settlement :=
  match f with
  | ViaFetchPaste => FetchSettled Rejected
  | ViaGetPasteContent => ContentSettled Rejected
  end.

Definition settleConsumed (f : Consumer) (updatedPaste : Paste.t) : Settlement :=
  match f with
  | ViaFetchPaste => FetchSettled (Resolved (Some (responseOf updatedPaste)))
  | ViaGetPasteContent => ContentSettled (Resolved (Some (Paste.content updatedPaste)))
  end.

(** One pending call goes on to its next await, or to its end, on the
    table as it is now. *)
Definition advance (c : Pending) (db : Table) : Pending * Table :=
  match c with
  | AtFindUnique f id now =>
      match findUnique id db with
      | Some (None, db') => (Settled (settleNull f), db')
      | Some (Some paste, db') =>
          if isPasteExpired (ValidDate <$> Paste.expiresAt paste) now
          then (Settled (settleNull f), db')
          else if maxViewsReached paste then (Settled (settleNull f), db')
          else (AtUpdate f id, db')
      | None => (Settled (settleRejected f), db)
      end
  | AtUpdate f id =>
      match update_increment id db with
      | Some (updatedPaste, db') => (Settled (settleConsumed f updatedPaste), db')
      | None => (Settled (settleRejected f), db)
      end
  | Settled _ => (c, db)
  end.

(** The calls in flight and the table. *)
Abbreviation Flight := (list Pending * Table)%type.

(** Call number [i] takes its next step. *)
Definition stepCall (i : nat) (st : Flight) : Flight :=
  match st.1 !! i with
  | Some c =>
      let '(c', db') := advance c st.2 in
      (<[i := c']> st.1, db')
  | None => st
  end.

(** A schedule, first step first. *)
Definition interleave (sched : list nat) (st : Flight) : Flight :=
  fold_left (fun st i => stepCall i st) sched st.

(** A settled [fetchPaste] reports no negative [remaining_views]. *)
Definition remainingNotNegative (c : Pending) : Prop :=
  match c with
  | Settled (FetchSettled (Resolved (Some result))) =>
      forall k, PasteFetchResponse.remaining_views result = Some k -> 0 <= k
  | _ => True
  end.

(** * Properties *)

Example toISOString_2021 : toISOString 1609459260000 = "2021-01-01T00:01:00.000Z".
Proof. reflexivity. Qed.

Example toISOString_leap : toISOString 1709210096789 = "2024-02-29T12:34:56.789Z".
Proof. reflexivity. Qed.

Example toISOString_before_epoch : toISOString (-1) = "1969-12-31T23:59:59.999Z".
Proof. reflexivity. Qed.

Example parseInt_plain : parseInt10 "1609459200000" = Some 1609459200000.
Proof. reflexivity. Qed.

Example parseInt_trailing : parseInt10 " -12abc" = Some (-12).
Proof. reflexivity. Qed.

Example parseInt_letters : parseInt10 "abc" = NaN.
Proof. reflexivity. Qed.

Example calculateExpiresAt_hour :
  calculateExpiresAt 3600 (ValidDate 1609459200000) = ValidDate 1609462800000.
Proof. reflexivity. Qed.

(** The tests of the repository, run on the embedding. *)

Example test_maxViews_reached :
  fetchAll "p1"
    [ValidDate 1609459200000; ValidDate 1609459200000; ValidDate 1609459200000]
    {["p1" := Paste.mk "Hello" 0 None (Some 2) 0]}
  = ([Resolved (Some (PasteFetchResponse.mk "Hello" (Some 1) None));
      Resolved (Some (PasteFetchResponse.mk "Hello" (Some 0) None));
      Resolved None],
     {["p1" := Paste.mk "Hello" 0 None (Some 2) 2]}).
Proof. vm_compute. reflexivity. Qed.

Example test_not_yet_expired :
  (fetchPaste "p1" (ValidDate 1609459230000)
     (createPaste (CreatePasteInput.mk "Hello" (Some 60) None)
        (ValidDate 1609459200000) "http://localhost:3000"
        {| cuid := "p1"; dbNow := 1793646000000 |} ∅).2).1
  = Resolved (Some (PasteFetchResponse.mk "Hello" None
                      (Some "2021-01-01T00:01:00.000Z"))).
Proof. vm_compute. reflexivity. Qed.

Example test_expired :
  (getPasteContent "p1" (ValidDate 1609459320000)
     (createPaste (CreatePasteInput.mk "Hello" (Some 60) None)
        (ValidDate 1609459200000) "http://localhost:3000"
        {| cuid := "p1"; dbNow := 1793646000000 |} ∅).2).1
  = Resolved None.
Proof. vm_compute. reflexivity. Qed.

Example test_non_existent :
  fetchPaste "non-existent-id" (ValidDate 1793646000000) ∅ = (Resolved None, ∅).
Proof. reflexivity. Qed.

(** ** The service calls, case by case *)

Lemma isPasteExpired_true (p : Paste.t) (now : Date) :
  isPasteExpired (ValidDate <$> Paste.expiresAt p) now = true <-> TimeExpired p now.
Proof.
  unfold TimeExpired, isPasteExpired.
  destruct (Paste.expiresAt p) as [T|]; simpl.
  - destruct now as [n|]; simpl.
    + rewrite Z.leb_le. split.
      * intros H. exists T, n. auto.
      * intros (T' & n' & HT & Hn & Hle). congruence.
    + split; [discriminate|]. intros (T' & n' & _ & Hn & _). discriminate.
  - split; [discriminate|]. intros (T' & n' & HT & _). discriminate.
Qed.

Lemma maxViewsReached_true (p : Paste.t) :
  maxViewsReached p = true <-> ViewExhausted p.
Proof.
  unfold ViewExhausted, maxViewsReached.
  destruct (Paste.maxViews p) as [M|].
  - rewrite Z.leb_le. split.
    + intros H. exists M. auto.
    + intros (M' & HM & Hle). congruence.
  - split; [discriminate|]. intros (M' & HM & _). discriminate.
Qed.

Lemma fetchPaste_cases (id : string) (now : Date) (db : Table) :
  fetchPaste id now db =
    match db !! id with
    | None => (Resolved None, db)
    | Some p =>
        if isPasteExpired (ValidDate <$> Paste.expiresAt p) now
        then (Resolved None, db)
        else if maxViewsReached p then (Resolved None, db)
        else (Resolved (Some (consumed p)), <[id := increment p]> db)
    end.
Proof.
  unfold fetchPaste, transaction, mbind, Tx_bind, findUnique, mret, Tx_ret.
  destruct (db !! id) as [p|] eqn:Hp; [|reflexivity].
  destruct (isPasteExpired _ now); [reflexivity|].
  destruct (maxViewsReached p); [reflexivity|].
  unfold update_increment. rewrite Hp. reflexivity.
Qed.

Lemma getPasteContent_cases (id : string) (now : Date) (db : Table) :
  getPasteContent id now db =
    match db !! id with
    | None => (Resolved None, db)
    | Some p =>
        if isPasteExpired (ValidDate <$> Paste.expiresAt p) now
        then (Resolved None, db)
        else if maxViewsReached p then (Resolved None, db)
        else (Resolved (Some (Paste.content p)), <[id := increment p]> db)
    end.
Proof.
  unfold getPasteContent, transaction, mbind, Tx_bind, findUnique, mret, Tx_ret.
  destruct (db !! id) as [p|] eqn:Hp; [|reflexivity].
  destruct (isPasteExpired _ now); [reflexivity|].
  destruct (maxViewsReached p); [reflexivity|].
  unfold update_increment. rewrite Hp. reflexivity.
Qed.

(** ** Expiry decision *)

(** C5. [isPasteExpired] is false for an absent [expiresAt], whatever
    [now] is; for a present [expiresAt = T] and an instant [now] it is
    true when [now >= T], the boundary [now = T] included, and false when
    [now < T]; so a paste with [expiresAt = T] passes the time check
    exactly for [now < T]. *)
Theorem isPasteExpired_decision :
  (forall now : Date, isPasteExpired None now = false) /\
  (forall T now : Z, T <= now ->
     isPasteExpired (Some (ValidDate T)) (ValidDate now) = true) /\
  (forall T : Z, isPasteExpired (Some (ValidDate T)) (ValidDate T) = true) /\
  (forall T now : Z, now < T ->
     isPasteExpired (Some (ValidDate T)) (ValidDate now) = false) /\
  (forall T now : Z,
     isPasteExpired (Some (ValidDate T)) (ValidDate now) = false <-> now < T).
Proof.
  repeat split; intros; simpl in *.
  - now apply Z.leb_le.
  - apply Z.leb_refl.
  - now apply Z.leb_gt.
  - now apply Z.leb_gt.
  - now apply Z.leb_gt.
Qed.

(** ** The clock *)

(** C8. Outside deterministic mode (TEST_MODE is not the string 1) the
    value of [getCurrentTime] is the wall-clock instant, so two requests
    with any headers, read at the same wall-clock instant, get the same
    [now]. *)
Theorem getCurrentTime_real_mode (env : ProcessEnv) (wallClock : Z)
    (headers1 headers2 : Headers) :
  env !! "TEST_MODE" <> Some "1" ->
  getCurrentTime env wallClock headers1 = ValidDate wallClock /\
  getCurrentTime env wallClock headers1 = getCurrentTime env wallClock headers2.
Proof.
  intros Hmode. unfold getCurrentTime.
  destruct (decide (env !! "TEST_MODE" = Some "1")) as [Heq|_]; [contradiction|].
  split; reflexivity.
Qed.

Lemma getCurrentTime_real_mode_witness :
  getCurrentTime {["TEST_MODE" := "0"]} 1793646000000
    {["x-test-now-ms" := "1000000000000"]} = ValidDate 1793646000000 /\
  getCurrentTime {["TEST_MODE" := "0"]} 1793646000000
    {["x-test-now-ms" := "1000000000000"]} =
  getCurrentTime {["TEST_MODE" := "0"]} 1793646000000
    {["x-test-now-ms" := "946684800000"]}.
Proof.
  apply (getCurrentTime_real_mode {["TEST_MODE" := "0"]} 1793646000000
           {["x-test-now-ms" := "1000000000000"]}
           {["x-test-now-ms" := "946684800000"]}).
  rewrite lookup_singleton_eq. discriminate.
Defined.

(** ** Consuming a view *)

(** C3. When no row has the id, or the row is time-expired at [now], or
    its views are exhausted, [fetchPaste] resolves to null and the table,
    and with it the row and its [viewCount], is what it was. *)
Theorem fetchPaste_unavailable (id : string) (now : Date) (db : Table) :
  (db !! id = None \/
   exists p, db !! id = Some p /\ (TimeExpired p now \/ ViewExhausted p)) ->
  fetchPaste id now db = (Resolved None, db).
Proof.
  intros H. rewrite fetchPaste_cases.
  destruct H as [Hnone | (p & Hp & Hun)].
  - rewrite Hnone. reflexivity.
  - rewrite Hp. destruct Hun as [Ht | Hv].
    + apply isPasteExpired_true in Ht. rewrite Ht. reflexivity.
    + apply maxViewsReached_true in Hv. rewrite Hv.
      destruct (isPasteExpired _ now); reflexivity.
Qed.

Lemma fetchPaste_unavailable_witness :
  fetchPaste "p1" (ValidDate 60000)
    {["p1" := Paste.mk "Hello" 0 (Some 60000) None 0]} =
  (Resolved None, {["p1" := Paste.mk "Hello" 0 (Some 60000) None 0]}).
Proof.
  apply (fetchPaste_unavailable "p1" (ValidDate 60000)
           {["p1" := Paste.mk "Hello" 0 (Some 60000) None 0]}).
  right. exists (Paste.mk "Hello" 0 (Some 60000) None 0). split.
  - apply lookup_singleton_eq.
  - left. exists 60000, 60000. simpl. repeat split. lia.
Defined.



(** C7. On the same table and at the same [now], [getPasteContent]
    resolves to a content exactly when [fetchPaste] resolves to a result,
    that content is the [content] field of the result, and both leave the
    same table: the row with [viewCount] one higher on success, the table
    as it was otherwise.  Neither rejects. *)
Theorem getPasteContent_fetchPaste (id : string) (now : Date) (db : Table) :
  (getPasteContent id now db).2 = (fetchPaste id now db).2 /\
  match (fetchPaste id now db).1, (getPasteContent id now db).1 with
  | Resolved (Some result), Resolved (Some content) =>
      content = PasteFetchResponse.content result /\
      exists p p', db !! id = Some p /\
        (fetchPaste id now db).2 = <[id := p']> db /\
        Paste.viewCount p' = Paste.viewCount p + 1
  | Resolved None, Resolved None => (fetchPaste id now db).2 = db
  | _, _ => False
  end.
Proof.
  rewrite fetchPaste_cases, getPasteContent_cases.
  destruct (db !! id) as [p|] eqn:Hp; simpl; [|auto].
  destruct (isPasteExpired _ now); simpl; [auto|].
  destruct (maxViewsReached p); simpl; [auto|].
  repeat apply conj; try reflexivity.
  exists p, (increment p). auto.
Qed.

(** ** The HTML view *)

(** C10. The page [/p/:id] decides with the wall clock: whatever the
    process environment (TEST_MODE set or not) and whatever the request
    headers (an x-test-now-ms override or none), the page served and the
    table afterwards are those of [getPasteContent] at the wall-clock
    instant.  The JSON route does follow the override: there is a request
    it answers differently with and without the header. *)
Theorem html_view_uses_wall_clock :
  (forall (env1 env2 : ProcessEnv) (headers1 headers2 : Headers)
          (wallClock : Z) (id : string) (db : Table),
     serve PId env1 wallClock {| headers := headers1; params_id := id |} db =
     serve PId env2 wallClock {| headers := headers2; params_id := id |} db) /\
  (forall (env : ProcessEnv) (hdrs : Headers) (wallClock : Z) (id : string)
          (db : Table),
     serve PId env wallClock {| headers := hdrs; params_id := id |} db =
     (ServedHtml
        match (getPasteContent id (ValidDate wallClock) db).1 with
        | Resolved None => NotFound
        | Resolved (Some content) => PasteView content
        | Rejected => ErrorBoundary
        end,
      (getPasteContent id (ValidDate wallClock) db).2)) /\
  (exists (env : ProcessEnv) (hdrs : Headers) (wallClock : Z) (id : string)
          (db : Table),
     env !! "TEST_MODE" = Some "1" /\
     (serve ApiPastesId env wallClock {| headers := hdrs; params_id := id |} db).1 <>
     (serve ApiPastesId env wallClock {| headers := ∅; params_id := id |} db).1 /\
     (serve PId env wallClock {| headers := hdrs; params_id := id |} db).1 =
     (serve PId env wallClock {| headers := ∅; params_id := id |} db).1).
Proof.
  split; [reflexivity|]. split.
  - intros env hdrs wallClock id db. unfold serve, PastePage. simpl.
    destruct (getPasteContent id (ValidDate wallClock) db) as [[[c|]|] db'];
      reflexivity.
  - exists {["TEST_MODE" := "1"]}, {["x-test-now-ms" := "1609459230000"]},
      1793646000000, "p1",
      {["p1" := Paste.mk "Hello" 1609459200000 (Some 1609459260000) None 0]}.
    split; [apply lookup_singleton_eq|]. split.
    + vm_compute. discriminate.
    + reflexivity.
Qed.

(** ** The view count stays within its budget *)

Lemma createPaste_cases (input : CreatePasteInput.t) (now : Date) (baseUrl : string)
    (dflt : StoreDefaults) (db : Table) :
  (createPaste input now baseUrl dflt db = (Rejected, db)) \/
  (exists p,
     db !! cuid dflt = None /\
     createPaste input now baseUrl dflt db =
       (Resolved (PasteCreateResponse.mk (cuid dflt)
                    (baseUrl ++ "/p/" ++ cuid dflt)),
        <[cuid dflt := p]> db) /\
     Paste.content p = CreatePasteInput.content input /\
     Paste.createdAt p = dbNow dflt /\
     Paste.maxViews p = CreatePasteInput.max_views input /\
     Paste.viewCount p = 0).
Proof.
  unfold createPaste, create.
  destruct (db !! cuid dflt) as [q|] eqn:Hq; [left; reflexivity|].
  destruct (CreatePasteInput.ttl_seconds input) as [ttl|];
    [destruct (ttl =? 0); [|destruct (calculateExpiresAt ttl now) as [ms|]]|];
    try (left; reflexivity);
    right; eexists; (split; [reflexivity|]); repeat apply conj; reflexivity.
Qed.

Lemma withinBudget_createPaste (input : CreatePasteInput.t) (now : Date)
    (baseUrl : string) (dflt : StoreDefaults) (db db1 : Table)
    (resp : PasteCreateResponse.t) (M : Z) :
  createPaste input now baseUrl dflt db = (Resolved resp, db1) ->
  CreatePasteInput.max_views input = Some M ->
  0 <= M ->
  withinBudget (PasteCreateResponse.id resp) M db1.
Proof.
  intros Hc HM Hle.
  destruct (createPaste_cases input now baseUrl dflt db)
    as [Hr | (p & _ & Hr & _ & _ & Hmax & Hvc)];
    rewrite Hr in Hc; [discriminate|].
  injection Hc as <- <-. simpl. exists p.
  rewrite lookup_insert_eq. repeat apply conj; [reflexivity|congruence|lia|lia].
Qed.

Lemma withinBudget_increment (id id' : string) (M : Z) (db : Table) (q : Paste.t) :
  withinBudget id M db ->
  db !! id' = Some q ->
  maxViewsReached q = false ->
  withinBudget id M (<[id' := increment q]> db).
Proof.
  intros (p & Hp & HM & Hvc) Hq Hm.
  destruct (decide (id' = id)) as [->|Hne].
  - exists (increment q). rewrite lookup_insert_eq.
    assert (q = p) as -> by congruence.
    unfold maxViewsReached in Hm. rewrite HM in Hm. apply Z.leb_gt in Hm.
    simpl. repeat apply conj; [reflexivity|assumption|lia|lia].
  - exists p. rewrite lookup_insert_ne by assumption. auto.
Qed.

Lemma withinBudget_call (id : string) (M : Z) (c : Call) (db : Table) :
  withinBudget id M db -> withinBudget id M (call c db).
Proof.
  intros Hinv. destruct c as [input now baseUrl dflt | id' now | id' now]; simpl.
  - destruct (createPaste_cases input now baseUrl dflt db)
      as [Hr | (q & Hfresh & Hr & _)]; rewrite Hr; simpl; [assumption|].
    destruct Hinv as (p & Hp & HM & Hvc). exists p.
    rewrite lookup_insert_ne; [auto|]. intros Heq. congruence.
  - rewrite fetchPaste_cases.
    destruct (db !! id') as [q|] eqn:Hq; [|assumption].
    destruct (isPasteExpired _ now); [assumption|].
    destruct (maxViewsReached q) eqn:Hm; [assumption|].
    simpl. now apply withinBudget_increment.
  - rewrite getPasteContent_cases.
    destruct (db !! id') as [q|] eqn:Hq; [|assumption].
    destruct (isPasteExpired _ now); [assumption|].
    destruct (maxViewsReached q) eqn:Hm; [assumption|].
    simpl. now apply withinBudget_increment.
Qed.

Lemma withinBudget_trace (id : string) (M : Z) (calls : list Call) (db : Table) :
  withinBudget id M db -> Forall (withinBudget id M) (trace calls db).
Proof.
  revert db. induction calls as [|c calls IH]; intros db Hinv; simpl.
  - constructor; [assumption|constructor].
  - constructor; [assumption|]. apply IH. now apply withinBudget_call.
Qed.

(** X20. When calls run one after the other, each from start to end
    before the next begins: a paste created by [createPaste] with
    [max_views = M] (a count, so [0 <= M]; validated input has [M >= 1])
    keeps [maxViews = M] and [0 <= viewCount <= M] in every table that
    any history of [createPaste], [fetchPaste] and [getPasteContent]
    calls passes through after the creation. *)
Theorem viewCount_within_maxViews (input : CreatePasteInput.t) (now : Date)
    (baseUrl : string) (dflt : StoreDefaults) (db db1 : Table)
    (resp : PasteCreateResponse.t) (M : Z) (calls : list Call) :
  createPaste input now baseUrl dflt db = (Resolved resp, db1) ->
  CreatePasteInput.max_views input = Some M ->
  0 <= M ->
  Forall (fun db' =>
            exists p, db' !! PasteCreateResponse.id resp = Some p /\
                      Paste.maxViews p = Some M /\
                      0 <= Paste.viewCount p <= M)
         (trace calls db1).
Proof.
  intros Hc HM Hle. apply withinBudget_trace.
  exact (withinBudget_createPaste input now baseUrl dflt db db1 resp M Hc HM Hle).
Qed.

Lemma viewCount_within_maxViews_witness :
  Forall (fun db' =>
            exists p, db' !! "p1" = Some p /\
                      Paste.maxViews p = Some 2 /\
                      0 <= Paste.viewCount p <= 2)
    (trace [CallFetchPaste "p1" (ValidDate 1609459200000);
            CallGetPasteContent "p1" (ValidDate 1609459201000);
            CallFetchPaste "p1" (ValidDate 1609459202000);
            CallFetchPaste "p1" (ValidDate 1609459203000)]
       {["p1" := Paste.mk "Hello" 1793646000000 None (Some 2) 0]}).
Proof.
  apply (viewCount_within_maxViews
           (CreatePasteInput.mk "Hello" None (Some 2))
           (ValidDate 1609459200000) "http://localhost:3000"
           {| cuid := "p1"; dbNow := 1793646000000 |} ∅
           {["p1" := Paste.mk "Hello" 1793646000000 None (Some 2) 0]}
           (PasteCreateResponse.mk "p1" "http://localhost:3000/p/p1") 2).
  - reflexivity.
  - reflexivity.
  - lia.
Defined.

(** ** Creation *)

(** C6, as the claim states it, fails: [createPaste] hands no [createdAt]
    to the store, which fills it from its own clock.  A paste created with
    [now] = 2021-01-01T00:00:00Z and a TTL of 3600 s while the store's
    clock reads 2026-11-02 gets that reading as [createdAt], and an
    [expiresAt] of 2021-01-01T01:00:00Z, which is not [createdAt] plus the
    TTL. *)
Lemma createPaste_createdAt_counterexample :
  exists p,
    (createPaste (CreatePasteInput.mk "Hello" (Some 3600) None)
       (ValidDate 1609459200000) "http://localhost:3000"
       {| cuid := "p1"; dbNow := 1793646000000 |} ∅).2 !! "p1" = Some p /\
    Paste.createdAt p <> 1609459200000 /\
    Paste.expiresAt p <> Some (Paste.createdAt p + 3600 * 1000) /\
    Paste.expiresAt p = Some (1609459200000 + 3600 * 1000).
Proof.
  exists (Paste.mk "Hello" 1793646000000 (Some 1609462800000) None 0).
  repeat apply conj; [reflexivity|simpl; lia| |reflexivity].
  simpl. intros H.
  assert (1609462800000 = 1793646000000 + 3600 * 1000) by congruence. lia.
Qed.

(** C6, amended. When the id drawn is free and the expiry date computed
    is a valid date, [createPaste] resolves and the row it persists has
    the [createdAt] the store read from its own clock, [viewCount] 0, the
    content and [max_views] of the input, and as [expiresAt]: the [now]
    supplied to the call plus [ttl_seconds] (1000 ms each) when
    [ttl_seconds] is present and not 0, and null otherwise. *)
Theorem createPaste_persists (input : CreatePasteInput.t) (now : Date)
    (baseUrl : string) (dflt : StoreDefaults) (db : Table) :
  db !! cuid dflt = None ->
  (forall ttl, CreatePasteInput.ttl_seconds input = Some ttl -> ttl <> 0 ->
     isValid (calculateExpiresAt ttl now) = true) ->
  exists p,
    createPaste input now baseUrl dflt db =
      (Resolved (PasteCreateResponse.mk (cuid dflt) (baseUrl ++ "/p/" ++ cuid dflt)),
       <[cuid dflt := p]> db) /\
    Paste.createdAt p = dbNow dflt /\
    Paste.viewCount p = 0 /\
    Paste.content p = CreatePasteInput.content input /\
    Paste.maxViews p = CreatePasteInput.max_views input /\
    (CreatePasteInput.ttl_seconds input = None -> Paste.expiresAt p = None) /\
    (CreatePasteInput.ttl_seconds input = Some 0 -> Paste.expiresAt p = None) /\
    (forall ttl, CreatePasteInput.ttl_seconds input = Some ttl -> ttl <> 0 ->
       exists n, now = ValidDate n /\ Paste.expiresAt p = Some (n + ttl * 1000)).
Proof.
  intros Hfresh Hvalid. unfold createPaste, create. rewrite Hfresh.
  destruct (CreatePasteInput.ttl_seconds input) as [ttl|] eqn:Httl.
  - destruct (ttl =? 0) eqn:Hz.
    + apply Z.eqb_eq in Hz. subst ttl. eexists. split; [reflexivity|].
      repeat apply conj; try reflexivity; try discriminate.
      intros ttl Heq Hne. congruence.
    + apply Z.eqb_neq in Hz. specialize (Hvalid ttl eq_refl Hz).
      unfold calculateExpiresAt in *.
      destruct now as [n|]; simpl in *; [|discriminate].
      destruct (Z.abs (n + ttl * 1000) <=? maxTime); [|discriminate].
      eexists. split; [reflexivity|].
      repeat apply conj; try reflexivity; try discriminate.
      * intros Heq. congruence.
      * intros ttl' Heq Hne. injection Heq as <-. exists n. auto.
  - eexists. split; [reflexivity|].
    repeat apply conj; try reflexivity; discriminate.
Qed.

Lemma createPaste_persists_witness :
  exists p,
    createPaste (CreatePasteInput.mk "Hello" (Some 3600) (Some 5))
      (ValidDate 1609459200000) "http://localhost:3000"
      {| cuid := "p1"; dbNow := 1793646000000 |} ∅ =
      (Resolved (PasteCreateResponse.mk "p1" ("http://localhost:3000" ++ "/p/" ++ "p1")),
       <["p1" := p]> ∅) /\
    Paste.createdAt p = 1793646000000 /\
    Paste.viewCount p = 0 /\
    Paste.content p = "Hello" /\
    Paste.maxViews p = Some 5 /\
    (Some 3600 = None -> Paste.expiresAt p = None) /\
    (Some 3600 = Some 0 -> Paste.expiresAt p = None) /\
    (forall ttl, Some 3600 = Some ttl -> ttl <> 0 ->
       exists n, ValidDate 1609459200000 = ValidDate n /\
                 Paste.expiresAt p = Some (n + ttl * 1000)).
Proof.
  apply (createPaste_persists (CreatePasteInput.mk "Hello" (Some 3600) (Some 5))
           (ValidDate 1609459200000) "http://localhost:3000"
           {| cuid := "p1"; dbNow := 1793646000000 |} ∅).
  - apply lookup_empty.
  - intros ttl Heq _. injection Heq as <-. reflexivity.
Defined.

(** ** The override in deterministic mode *)

Lemma parseDigits_Some (s : string) (a : Z) : is_Some (parseDigits s (Some a)).
Proof.
  revert a. induction s as [|c r IH]; intros a; simpl.
  - eauto.
  - destruct (digitValue c); [apply IH | eauto].
Qed.

(** A value that starts with a decimal digit is read as a number, whatever
    follows the digits. *)
Lemma parseInt10_leading_digit (c : ascii) (r : string) (d : Z) :
  digitValue c = Some d -> is_Some (parseInt10 (String c r)).
Proof.
  intros Hd. unfold parseInt10.
  assert (trimStart (String c r) = String c r) as ->.
  { destruct c as [[] [] [] [] [] [] [] []]; try discriminate Hd; reflexivity. }
  assert (parseDigits (String c r) None = parseDigits r (Some (10 * 0 + d))) as Hp.
  { simpl. rewrite Hd. reflexivity. }
  destruct c as [[] [] [] [] [] [] [] []]; try discriminate Hd;
    rewrite Hp; apply parseDigits_Some.
Qed.

(** C9, as the claim states it, fails: nothing rejects a malformed
    override.  In deterministic mode the header value abc reaches
    [fetchPaste] as the Invalid Date; [isPasteExpired] is evaluated with it
    and answers false, so a paste that expired in 2021 is served with
    status 200 and a view is consumed, while the same request without the
    header (wall clock in 2026) is answered 404. *)
Lemma malformed_override_counterexample :
  getCurrentTime {["TEST_MODE" := "1"]} 1793646000000
    {["x-test-now-ms" := "abc"]} = InvalidDate /\
  isPasteExpired (Some (ValidDate 1609459260000))
    (getCurrentTime {["TEST_MODE" := "1"]} 1793646000000
       {["x-test-now-ms" := "abc"]}) = false /\
  GET {["TEST_MODE" := "1"]} 1793646000000
    {| headers := {["x-test-now-ms" := "abc"]}; params_id := "p1" |}
    {["p1" := Paste.mk "Hello" 1609459200000 (Some 1609459260000) None 0]} =
  ({| status := 200;
      body := PasteBody (PasteFetchResponse.mk "Hello" None
                           (Some "2021-01-01T00:01:00.000Z")) |},
   {["p1" := Paste.mk "Hello" 1609459200000 (Some 1609459260000) None 1]}) /\
  GET {["TEST_MODE" := "1"]} 1793646000000
    {| headers := ∅; params_id := "p1" |}
    {["p1" := Paste.mk "Hello" 1609459200000 (Some 1609459260000) None 0]} =
  ({| status := 404; body := ErrorBody "Paste not found" |},
   {["p1" := Paste.mk "Hello" 1609459200000 (Some 1609459260000) None 0]}).
Proof.
  repeat apply conj; vm_compute; reflexivity.
Qed.

(** C9, amended. In deterministic mode a non-empty x-test-now-ms value
    [v] is not validated: [getCurrentTime] is [new Date(parseInt(v, 10))],
    and [GET] passes that date to [fetchPaste] as [now].  When [v] has no
    leading decimal integer the date is the Invalid Date, and with the
    Invalid Date as [now] [isPasteExpired] is false for every
    [expiresAt]. *)
Theorem getCurrentTime_test_mode (env : ProcessEnv) (wallClock : Z)
    (hdrs : Headers) (v : string) :
  env !! "TEST_MODE" = Some "1" ->
  hdrs !! "x-test-now-ms" = Some v ->
  v <> "" ->
  getCurrentTime env wallClock hdrs = newDate (parseInt10 v) /\
  (forall (id : string) (db : Table),
     GET env wallClock {| headers := hdrs; params_id := id |} db =
     (respond (fetchPaste id (newDate (parseInt10 v)) db).1,
      (fetchPaste id (newDate (parseInt10 v)) db).2)) /\
  (parseInt10 v = NaN ->
     getCurrentTime env wallClock hdrs = InvalidDate /\
     forall expiresAt : option Date,
       isPasteExpired expiresAt (getCurrentTime env wallClock hdrs) = false).
Proof.
  intros Hmode Hv Hne.
  assert (getCurrentTime env wallClock hdrs = newDate (parseInt10 v)) as Hnow.
  { unfold getCurrentTime.
    destruct (decide (env !! "TEST_MODE" = Some "1")); [|contradiction].
    rewrite Hv. destruct v; [contradiction|reflexivity]. }
  split; [exact Hnow|]. split.
  - intros id db. unfold GET. simpl. rewrite Hnow.
    destruct (fetchPaste id (newDate (parseInt10 v)) db). reflexivity.
  - intros Hnan. rewrite Hnow, Hnan. split; [reflexivity|].
    intros [e|]; reflexivity.
Qed.

Lemma getCurrentTime_test_mode_witness :
  getCurrentTime {["TEST_MODE" := "1"]} 1793646000000
    {["x-test-now-ms" := "abc"]} = newDate (parseInt10 "abc") /\
  (forall (id : string) (db : Table),
     GET {["TEST_MODE" := "1"]} 1793646000000
       {| headers := {["x-test-now-ms" := "abc"]}; params_id := id |} db =
     (respond (fetchPaste id (newDate (parseInt10 "abc")) db).1,
      (fetchPaste id (newDate (parseInt10 "abc")) db).2)) /\
  (parseInt10 "abc" = NaN ->
     getCurrentTime {["TEST_MODE" := "1"]} 1793646000000
       {["x-test-now-ms" := "abc"]} = InvalidDate /\
     forall expiresAt : option Date,
       isPasteExpired expiresAt
         (getCurrentTime {["TEST_MODE" := "1"]} 1793646000000
            {["x-test-now-ms" := "abc"]}) = false).
Proof.
  apply (getCurrentTime_test_mode {["TEST_MODE" := "1"]} 1793646000000
           {["x-test-now-ms" := "abc"]} "abc").
  - apply lookup_singleton_eq.
  - apply lookup_singleton_eq.
  - discriminate.
Defined.

(** ** Admission count of serialized fetches *)

Lemma fetchAll_cons (id : string) (now : Date) (nows : list Date) (db : Table) :
  fetchAll id (now :: nows) db =
    ((fetchPaste id now db).1 :: (fetchAll id nows (fetchPaste id now db).2).1,
     (fetchAll id nows (fetchPaste id now db).2).2).
Proof.
  simpl. destruct (fetchPaste id now db) as [r db']. simpl.
  destruct (fetchAll id nows db') as [rs db'']. reflexivity.
Qed.

Lemma fetchAll_counts (id : string) (nows : list Date) :
  forall (db : Table) (p : Paste.t) (M : Z),
    db !! id = Some p ->
    Paste.maxViews p = Some M ->
    0 <= Paste.viewCount p <= M ->
    Forall (fun now => isPasteExpired (ValidDate <$> Paste.expiresAt p) now = false) nows ->
    let N := Z.of_nat (length nows) in
    let k := Z.min N (M - Paste.viewCount p) in
    countConsumed (fetchAll id nows db).1 = k /\
    countUnavailable (fetchAll id nows db).1 = N - k /\
    exists p', (fetchAll id nows db).2 !! id = Some p' /\
               Paste.viewCount p' = Paste.viewCount p + k.
Proof.
  induction nows as [|now nows IH]; intros db p M Hp HM Hvc Hlive N k.
  - subst N k. simpl. unfold countConsumed, countUnavailable. simpl.
    repeat apply conj; try lia. exists p. split; [assumption|lia].
  - inversion Hlive as [|? ? Hnow Hrest]; subst.
    rewrite fetchAll_cons, fetchPaste_cases, Hp, Hnow.
    unfold maxViewsReached. rewrite HM.
    destruct (M <=? Paste.viewCount p) eqn:Hfull.
    + apply Z.leb_le in Hfull.
      destruct (IH db p M Hp HM Hvc Hrest) as (Hc & Hu & p' & Hp' & Hvc').
      subst N k. cbn [fst snd] in *.
      unfold countConsumed, countUnavailable in *. cbn [List.filter isConsumed isUnavailable length] in *.
      repeat apply conj; try lia. exists p'. split; [assumption|lia].
    + apply Z.leb_gt in Hfull.
      assert (<[id := increment p]> db !! id = Some (increment p)) as Hp1
        by apply lookup_insert_eq.
      assert (0 <= Paste.viewCount (increment p) <= M) as Hvc1 by (simpl; lia).
      destruct (IH (<[id := increment p]> db) (increment p) M Hp1 HM Hvc1 Hrest)
        as (Hc & Hu & p' & Hp' & Hvc').
      subst N k. cbn [fst snd] in *.
      unfold countConsumed, countUnavailable in *.
      cbn [List.filter isConsumed isUnavailable length Paste.viewCount increment] in *.
      repeat apply conj; try lia. exists p'. split; [assumption|lia].
Qed.

(** X1. Serialized admission. Take a fresh paste ([viewCount] 0) with
    [maxViews = M] and [N] [fetchPaste] calls on it, none of them at an
    instant where the paste is time-expired.  When the [N] transactions
    run one after the other, in whatever order [sched], exactly
    [min(N, M)] resolve to a result and the other [N - min(N, M)] to null,
    the final [viewCount] is [min(N, M)], and every table in between has
    [viewCount <= M]. *)
Theorem fetchPaste_serial_admission (id : string) (nows sched : list Date)
    (db : Table) (p : Paste.t) (M : Z) :
  db !! id = Some p ->
  Paste.maxViews p = Some M ->
  Paste.viewCount p = 0 ->
  0 <= M ->
  Forall (fun now => ~ TimeExpired p now) nows ->
  Permutation nows sched ->
  countConsumed (fetchAll id sched db).1 = Z.min (Z.of_nat (length nows)) M /\
  countUnavailable (fetchAll id sched db).1 =
    Z.of_nat (length nows) - Z.min (Z.of_nat (length nows)) M /\
  (exists p', (fetchAll id sched db).2 !! id = Some p' /\
              Paste.viewCount p' = Z.min (Z.of_nat (length nows)) M) /\
  Forall (fun db' => exists p', db' !! id = Some p' /\
                                0 <= Paste.viewCount p' <= M)
         (trace (map (CallFetchPaste id) sched) db).
Proof.
  intros Hp HM Hvc Hle Hlive Hperm.
  assert (Forall (fun now =>
            isPasteExpired (ValidDate <$> Paste.expiresAt p) now = false) sched)
    as Hlive'.
  { rewrite Forall_forall in *. intros now Hin.
    destruct (isPasteExpired (ValidDate <$> Paste.expiresAt p) now) eqn:He;
      [|reflexivity].
    apply isPasteExpired_true in He. exfalso. apply (Hlive now); [|assumption].
    apply list_elem_of_In. apply list_elem_of_In in Hin.
    now rewrite Hperm. }
  rewrite (Permutation_length Hperm).
  destruct (fetchAll_counts id sched db p M Hp HM ltac:(lia) Hlive')
    as (Hc & Hu & p' & Hp' & Hvc').
  rewrite Hvc, Z.sub_0_r in *.
  repeat apply conj; try assumption.
  - exists p'. split; [assumption|lia].
  - assert (withinBudget id M db) as Hinv.
    { exists p. repeat apply conj; try assumption; lia. }
    apply (withinBudget_trace id M (map (CallFetchPaste id) sched)) in Hinv.
    eapply Forall_impl; [exact Hinv|].
    intros db' (q & Hq & _ & Hb). exists q. auto.
Qed.

Lemma fetchPaste_serial_admission_witness :
  countConsumed
    (fetchAll "p1" [ValidDate 3; ValidDate 1; ValidDate 2]
       {["p1" := Paste.mk "Hello" 0 (Some 60000) (Some 2) 0]}).1 =
    Z.min (Z.of_nat (length [ValidDate 1; ValidDate 2; ValidDate 3])) 2 /\
  countUnavailable
    (fetchAll "p1" [ValidDate 3; ValidDate 1; ValidDate 2]
       {["p1" := Paste.mk "Hello" 0 (Some 60000) (Some 2) 0]}).1 =
    Z.of_nat (length [ValidDate 1; ValidDate 2; ValidDate 3]) -
    Z.min (Z.of_nat (length [ValidDate 1; ValidDate 2; ValidDate 3])) 2 /\
  (exists p',
     (fetchAll "p1" [ValidDate 3; ValidDate 1; ValidDate 2]
        {["p1" := Paste.mk "Hello" 0 (Some 60000) (Some 2) 0]}).2 !! "p1" = Some p' /\
     Paste.viewCount p' =
       Z.min (Z.of_nat (length [ValidDate 1; ValidDate 2; ValidDate 3])) 2) /\
  Forall (fun db' => exists p', db' !! "p1" = Some p' /\
                                0 <= Paste.viewCount p' <= 2)
    (trace (map (CallFetchPaste "p1") [ValidDate 3; ValidDate 1; ValidDate 2])
       {["p1" := Paste.mk "Hello" 0 (Some 60000) (Some 2) 0]}).
Proof.
  apply (fetchPaste_serial_admission "p1"
           [ValidDate 1; ValidDate 2; ValidDate 3]
           [ValidDate 3; ValidDate 1; ValidDate 2]
           {["p1" := Paste.mk "Hello" 0 (Some 60000) (Some 2) 0]}
           (Paste.mk "Hello" 0 (Some 60000) (Some 2) 0) 2).
  - apply lookup_singleton_eq.
  - reflexivity.
  - reflexivity.
  - lia.
  - repeat constructor; intros (T & n & HT & Hn & Hle); simpl in HT;
      injection HT as <-; injection Hn as <-; lia.
  - apply Permutation_sym. apply (Permutation_cons_app [_; _] []). reflexivity.
Defined.

(** ** What a history of calls does to one row *)

(** One call either leaves the row of [id] as it is, or it is a consume on
    [id] that passed the view check and stores the row with one more
    view. *)
Lemma call_row (id : string) (c : Call) (db : Table) (p : Paste.t) :
  db !! id = Some p ->
  (consumedBy id c db = false /\ call c db !! id = Some p) \/
  (consumedBy id c db = true /\ call c db !! id = Some (increment p) /\
   maxViewsReached p = false).
Proof.
  intros Hp. destruct c as [input now baseUrl dflt | id' now | id' now]; simpl.
  - left. split; [reflexivity|].
    destruct (createPaste_cases input now baseUrl dflt db)
      as [Hr | (q & Hfresh & Hr & _)]; rewrite Hr; simpl; [assumption|].
    rewrite lookup_insert_ne; [assumption|congruence].
  - rewrite fetchPaste_cases. case_bool_decide as Hid.
    + subst id'. rewrite Hp.
      destruct (isPasteExpired _ now); [left; auto|].
      destruct (maxViewsReached p) eqn:Hm; [left; auto|].
      right. simpl. rewrite lookup_insert_eq. auto.
    + left. split; [reflexivity|].
      destruct (db !! id') as [q|]; [|assumption].
      destruct (isPasteExpired _ now); [assumption|].
      destruct (maxViewsReached q); [assumption|].
      simpl. rewrite lookup_insert_ne; assumption.
  - rewrite getPasteContent_cases. case_bool_decide as Hid.
    + subst id'. rewrite Hp.
      destruct (isPasteExpired _ now); [left; auto|].
      destruct (maxViewsReached p) eqn:Hm; [left; auto|].
      right. simpl. rewrite lookup_insert_eq. auto.
    + left. split; [reflexivity|].
      destruct (db !! id') as [q|]; [|assumption].
      destruct (isPasteExpired _ now); [assumption|].
      destruct (maxViewsReached q); [assumption|].
      simpl. rewrite lookup_insert_ne; assumption.
Qed.

Lemma run_cons (c : Call) (calls : list Call) (db : Table) :
  run (c :: calls) db = run calls (call c db).
Proof. reflexivity. Qed.

Lemma run_row (id : string) (calls : list Call) :
  forall (db : Table) (p : Paste.t),
    db !! id = Some p ->
    exists p', run calls db !! id = Some p' /\
      Paste.content p' = Paste.content p /\
      Paste.createdAt p' = Paste.createdAt p /\
      Paste.expiresAt p' = Paste.expiresAt p /\
      Paste.maxViews p' = Paste.maxViews p /\
      Paste.viewCount p' = Paste.viewCount p + consumes id calls db /\
      0 <= consumes id calls db.
Proof.
  induction calls as [|c calls IH]; intros db p Hp.
  - exists p. simpl. repeat apply conj; try reflexivity; try assumption; lia.
  - rewrite run_cons. cbn [consumes].
    destruct (call_row id c db p Hp) as [[Hc Hrow] | (Hc & Hrow & _)];
      rewrite Hc; destruct (IH _ _ Hrow) as (p' & Hp' & H1 & H2 & H3 & H4 & H5 & H6);
      exists p'; simpl in *; repeat apply conj; try assumption; lia.
Qed.

(** X2. A row is never deleted and never rewritten: after any history of
    [createPaste], [fetchPaste] and [getPasteContent] calls the row of an
    existing id is still there with the same content, [createdAt],
    [expiresAt] and [maxViews], and a [viewCount] that has not decreased. *)
Theorem row_attributes_immutable (id : string) (calls : list Call) (db : Table)
    (p : Paste.t) :
  db !! id = Some p ->
  exists p', run calls db !! id = Some p' /\
    Paste.content p' = Paste.content p /\
    Paste.createdAt p' = Paste.createdAt p /\
    Paste.expiresAt p' = Paste.expiresAt p /\
    Paste.maxViews p' = Paste.maxViews p /\
    Paste.viewCount p <= Paste.viewCount p'.
Proof.
  intros Hp.
  destruct (run_row id calls db p Hp) as (p' & Hp' & H1 & H2 & H3 & H4 & H5 & H6).
  exists p'. repeat apply conj; try assumption. lia.
Qed.

Lemma row_attributes_immutable_witness :
  exists p',
    run [CallFetchPaste "p1" (ValidDate 10);
         CallCreatePaste (CreatePasteInput.mk "Other" None None) (ValidDate 20)
           "http://localhost:3000" {| cuid := "p1"; dbNow := 20 |};
         CallGetPasteContent "p1" (ValidDate 30)]
      {["p1" := Paste.mk "Hello" 0 (Some 60000) (Some 5) 1]} !! "p1" = Some p' /\
    Paste.content p' = "Hello" /\
    Paste.createdAt p' = 0 /\
    Paste.expiresAt p' = Some 60000 /\
    Paste.maxViews p' = Some 5 /\
    1 <= Paste.viewCount p'.
Proof.
  apply (row_attributes_immutable "p1"
           [CallFetchPaste "p1" (ValidDate 10);
            CallCreatePaste (CreatePasteInput.mk "Other" None None) (ValidDate 20)
              "http://localhost:3000" {| cuid := "p1"; dbNow := 20 |};
            CallGetPasteContent "p1" (ValidDate 30)]
           {["p1" := Paste.mk "Hello" 0 (Some 60000) (Some 5) 1]}
           (Paste.mk "Hello" 0 (Some 60000) (Some 5) 1)).
  apply lookup_singleton_eq.
Defined.

(** X3. The stored [viewCount] counts the successful reads: after any
    history of calls, the [viewCount] of a row is what it was before plus
    the number of [fetchPaste] and [getPasteContent] calls on its id that
    resolved to a value other than null. *)
Theorem viewCount_counts_consumes (id : string) (calls : list Call) (db : Table)
    (p : Paste.t) :
  db !! id = Some p ->
  exists p', run calls db !! id = Some p' /\
    Paste.viewCount p' = Paste.viewCount p + consumes id calls db.
Proof.
  intros Hp.
  destruct (run_row id calls db p Hp) as (p' & Hp' & _ & _ & _ & _ & H5 & _).
  exists p'. auto.
Qed.

Lemma viewCount_counts_consumes_witness :
  exists p',
    run [CallFetchPaste "p1" (ValidDate 10);
         CallFetchPaste "p1" (ValidDate 60000);
         CallFetchPaste "p2" (ValidDate 20);
         CallGetPasteContent "p1" (ValidDate 30)]
      {["p1" := Paste.mk "Hello" 0 (Some 60000) (Some 5) 1]} !! "p1" = Some p' /\
    Paste.viewCount p' =
      1 + consumes "p1"
            [CallFetchPaste "p1" (ValidDate 10);
             CallFetchPaste "p1" (ValidDate 60000);
             CallFetchPaste "p2" (ValidDate 20);
             CallGetPasteContent "p1" (ValidDate 30)]
            {["p1" := Paste.mk "Hello" 0 (Some 60000) (Some 5) 1]}.
Proof.
  apply (viewCount_counts_consumes "p1"
           [CallFetchPaste "p1" (ValidDate 10);
            CallFetchPaste "p1" (ValidDate 60000);
            CallFetchPaste "p2" (ValidDate 20);
            CallGetPasteContent "p1" (ValidDate 30)]
           {["p1" := Paste.mk "Hello" 0 (Some 60000) (Some 5) 1]}
           (Paste.mk "Hello" 0 (Some 60000) (Some 5) 1)).
  apply lookup_singleton_eq.
Defined.

Example consumes_counts_two :
  consumes "p1"
    [CallFetchPaste "p1" (ValidDate 10);
     CallFetchPaste "p1" (ValidDate 60000);
     CallFetchPaste "p2" (ValidDate 20);
     CallGetPasteContent "p1" (ValidDate 30)]
    {["p1" := Paste.mk "Hello" 0 (Some 60000) (Some 5) 1]} = 2.
Proof. vm_compute. reflexivity. Qed.

(** X4. A call touches one row at most.  [fetchPaste] and
    [getPasteContent] leave the row of every other id as it was;
    [createPaste] leaves every row but the one of the id it draws, and
    when that id is taken it rejects and changes nothing. *)
Theorem calls_touch_one_row :
  (forall (id : string) (now : Date) (db : Table) (id' : string),
     id' <> id -> (fetchPaste id now db).2 !! id' = db !! id') /\
  (forall (id : string) (now : Date) (db : Table) (id' : string),
     id' <> id -> (getPasteContent id now db).2 !! id' = db !! id') /\
  (forall (input : CreatePasteInput.t) (now : Date) (baseUrl : string)
          (dflt : StoreDefaults) (db : Table) (id' : string),
     id' <> cuid dflt ->
     (createPaste input now baseUrl dflt db).2 !! id' = db !! id') /\
  (forall (input : CreatePasteInput.t) (now : Date) (baseUrl : string)
          (dflt : StoreDefaults) (db : Table) (p : Paste.t),
     db !! cuid dflt = Some p ->
     createPaste input now baseUrl dflt db = (Rejected, db)).
Proof.
  repeat apply conj.
  - intros id now db id' Hne. rewrite fetchPaste_cases.
    destruct (db !! id) as [q|]; [|reflexivity].
    destruct (isPasteExpired _ now); [reflexivity|].
    destruct (maxViewsReached q); [reflexivity|].
    simpl. apply lookup_insert_ne. congruence.
  - intros id now db id' Hne. rewrite getPasteContent_cases.
    destruct (db !! id) as [q|]; [|reflexivity].
    destruct (isPasteExpired _ now); [reflexivity|].
    destruct (maxViewsReached q); [reflexivity|].
    simpl. apply lookup_insert_ne. congruence.
  - intros input now baseUrl dflt db id' Hne.
    destruct (createPaste_cases input now baseUrl dflt db)
      as [Hr | (q & _ & Hr & _)]; rewrite Hr; simpl; [reflexivity|].
    apply lookup_insert_ne. congruence.
  - intros input now baseUrl dflt db p Hp.
    unfold createPaste, create. rewrite Hp. reflexivity.
Qed.

(** X5. Unavailable is for good.  Once the views of a row are exhausted,
    [fetchPaste] on its id resolves to null after any further history of
    calls and at any [now]; once the row is time-expired at an instant, it
    does so at every later instant. *)
Theorem unavailable_forever (id : string) (db : Table) (p : Paste.t)
    (calls : list Call) :
  db !! id = Some p ->
  (ViewExhausted p ->
   forall now : Date,
     fetchPaste id now (run calls db) = (Resolved None, run calls db)) /\
  (forall n n' : Z,
     TimeExpired p (ValidDate n) -> n <= n' ->
     fetchPaste id (ValidDate n') (run calls db) = (Resolved None, run calls db)).
Proof.
  intros Hp.
  destruct (run_row id calls db p Hp) as (p' & Hp' & _ & _ & He & Hm & Hv & Hc).
  split.
  - intros (M & HM & Hle) now. rewrite fetchPaste_cases, Hp'.
    assert (maxViewsReached p' = true) as ->.
    { apply maxViewsReached_true. exists M. split; [congruence|lia]. }
    destruct (isPasteExpired _ now); reflexivity.
  - intros n n' (T & m & HT & Hm' & Hle) Hnn. injection Hm' as <-.
    rewrite fetchPaste_cases, Hp'.
    assert (isPasteExpired (ValidDate <$> Paste.expiresAt p') (ValidDate n') = true)
      as ->; [|reflexivity].
    apply isPasteExpired_true. exists T, n'. repeat split; [congruence|lia].
Qed.

Lemma unavailable_forever_witness :
  (ViewExhausted (Paste.mk "Hello" 0 (Some 60000) (Some 1) 1) ->
   forall now : Date,
     fetchPaste "p1" now
       (run [CallFetchPaste "p1" (ValidDate 10)]
          {["p1" := Paste.mk "Hello" 0 (Some 60000) (Some 1) 1]}) =
     (Resolved None,
      run [CallFetchPaste "p1" (ValidDate 10)]
        {["p1" := Paste.mk "Hello" 0 (Some 60000) (Some 1) 1]})) /\
  (forall n n' : Z,
     TimeExpired (Paste.mk "Hello" 0 (Some 60000) (Some 1) 1) (ValidDate n) ->
     n <= n' ->
     fetchPaste "p1" (ValidDate n')
       (run [CallFetchPaste "p1" (ValidDate 10)]
          {["p1" := Paste.mk "Hello" 0 (Some 60000) (Some 1) 1]}) =
     (Resolved None,
      run [CallFetchPaste "p1" (ValidDate 10)]
        {["p1" := Paste.mk "Hello" 0 (Some 60000) (Some 1) 1]})).
Proof.
  apply (unavailable_forever "p1"
           {["p1" := Paste.mk "Hello" 0 (Some 60000) (Some 1) 1]}
           (Paste.mk "Hello" 0 (Some 60000) (Some 1) 1)
           [CallFetchPaste "p1" (ValidDate 10)]).
  apply lookup_singleton_eq.
Defined.

(** X6. In a [fetchPaste] call that runs from start to end with no other
    call in between, the clamp does not engage: when the call resolves to
    a result for a row with [maxViews = M], the [remaining_views] it
    reports and the [viewCount] it has just stored add up to [M]; it
    reports null exactly for a row without [maxViews]. *)
Theorem remaining_views_exact (id : string) (now : Date) (db db' : Table)
    (result : PasteFetchResponse.t) :
  fetchPaste id now db = (Resolved (Some result), db') ->
  exists p', db' !! id = Some p' /\
    (Paste.maxViews p' = None ->
     PasteFetchResponse.remaining_views result = None) /\
    (forall M, Paste.maxViews p' = Some M ->
       exists k, PasteFetchResponse.remaining_views result = Some k /\
                 0 <= k /\ k + Paste.viewCount p' = M).
Proof.
  rewrite fetchPaste_cases.
  destruct (db !! id) as [p|] eqn:Hp; [|discriminate].
  destruct (isPasteExpired _ now); [discriminate|].
  destruct (maxViewsReached p) eqn:Hm; [discriminate|].
  intros H. injection H as <- <-. exists (increment p).
  rewrite lookup_insert_eq. split; [reflexivity|].
  unfold maxViewsReached in Hm. simpl. split.
  - intros ->. reflexivity.
  - intros M HM. rewrite HM in *. apply Z.leb_gt in Hm.
    exists (M - (Paste.viewCount p + 1)). simpl.
    repeat apply conj; [f_equal; lia|lia|lia].
Qed.

Lemma remaining_views_exact_witness :
  exists p',
    <["p1" := Paste.mk "Hello" 0 None (Some 3) 2]>
      ({["p1" := Paste.mk "Hello" 0 None (Some 3) 1]} : Table) !! "p1" = Some p' /\
    (Paste.maxViews p' = None ->
     PasteFetchResponse.remaining_views
       (PasteFetchResponse.mk "Hello" (Some 1) None) = None) /\
    (forall M, Paste.maxViews p' = Some M ->
       exists k, PasteFetchResponse.remaining_views
                   (PasteFetchResponse.mk "Hello" (Some 1) None) = Some k /\
                 0 <= k /\ k + Paste.viewCount p' = M).
Proof.
  apply (remaining_views_exact "p1" (ValidDate 10)
           {["p1" := Paste.mk "Hello" 0 None (Some 3) 1]}).
  vm_compute. reflexivity.
Defined.

(** ** From creation to the first reads *)

Lemma createPaste_resolved (input : CreatePasteInput.t) (now : Date)
    (baseUrl : string) (dflt : StoreDefaults) (db db1 : Table)
    (resp : PasteCreateResponse.t) :
  createPaste input now baseUrl dflt db = (Resolved resp, db1) ->
  exists p,
    db !! cuid dflt = None /\
    resp = PasteCreateResponse.mk (cuid dflt) (baseUrl ++ "/p/" ++ cuid dflt) /\
    db1 = <[cuid dflt := p]> db /\
    Paste.content p = CreatePasteInput.content input /\
    Paste.createdAt p = dbNow dflt /\
    Paste.maxViews p = CreatePasteInput.max_views input /\
    Paste.viewCount p = 0 /\
    Paste.expiresAt p =
      match CreatePasteInput.ttl_seconds input with
      | Some ttl => if ttl =? 0 then None else getTime (calculateExpiresAt ttl now)
      | None => None
      end /\
    (forall ttl, CreatePasteInput.ttl_seconds input = Some ttl -> ttl <> 0 ->
       isValid (calculateExpiresAt ttl now) = true).
Proof.
  unfold createPaste, create.
  destruct (db !! cuid dflt) as [q|] eqn:Hq; [discriminate|].
  destruct (CreatePasteInput.ttl_seconds input) as [ttl|].
  - destruct (ttl =? 0) eqn:Hz.
    + intros H. injection H as <- <-. eexists.
      repeat apply conj; try reflexivity.
      intros ttl' Heq Hne. injection Heq as <-. apply Z.eqb_eq in Hz. contradiction.
    + destruct (calculateExpiresAt ttl now) as [ms|] eqn:Hc; [|discriminate].
      intros H. injection H as <- <-. eexists.
      repeat apply conj; try reflexivity.
      intros ttl' Heq Hne. injection Heq as <-. rewrite Hc. reflexivity.
  - intros H. injection H as <- <-. eexists.
    repeat apply conj; try reflexivity. discriminate.
Qed.

(** X7. A paste lives for its TTL, counted from the [now] handed to
    [createPaste].  After a creation at instant [n] with [ttl_seconds = t]
    (not 0) and no or a positive view budget, the first [fetchPaste] at an
    instant before [n + 1000 t] resolves to the content that was stored,
    the budget minus one, and the ISO string of [n + 1000 t]; at
    [n + 1000 t] or later it resolves to null and changes nothing. *)
Theorem paste_lives_for_ttl (input : CreatePasteInput.t) (n t : Z)
    (baseUrl : string) (dflt : StoreDefaults) (db db1 : Table)
    (resp : PasteCreateResponse.t) :
  createPaste input (ValidDate n) baseUrl dflt db = (Resolved resp, db1) ->
  CreatePasteInput.ttl_seconds input = Some t ->
  t <> 0 ->
  (forall M, CreatePasteInput.max_views input = Some M -> 1 <= M) ->
  forall n' : Z,
    (n' < n + t * 1000 ->
     (fetchPaste (PasteCreateResponse.id resp) (ValidDate n') db1).1 =
       Resolved (Some (PasteFetchResponse.mk (CreatePasteInput.content input)
                         ((fun M => M - 1) <$> CreatePasteInput.max_views input)
                         (Some (toISOString (n + t * 1000)))))) /\
    (n + t * 1000 <= n' ->
     fetchPaste (PasteCreateResponse.id resp) (ValidDate n') db1 =
       (Resolved None, db1)).
Proof.
  intros Hc Httl Hne Hbudget n'.
  destruct (createPaste_resolved _ _ _ _ _ _ _ Hc)
    as (p & _ & -> & -> & Hcontent & _ & Hmax & Hvc & Hexp & Hvalid).
  rewrite Httl in Hexp. specialize (Hvalid t Httl Hne).
  apply Z.eqb_neq in Hne. rewrite Hne in Hexp.
  unfold calculateExpiresAt in *. simpl in Hexp, Hvalid.
  destruct (Z.abs (n + t * 1000) <=? maxTime); [|discriminate].
  simpl in Hexp. simpl.
  rewrite fetchPaste_cases, lookup_insert_eq, Hexp. simpl.
  split.
  - intros Hlt. apply Z.leb_gt in Hlt. rewrite Hlt.
    unfold maxViewsReached. rewrite Hmax, Hvc.
    destruct (CreatePasteInput.max_views input) as [M|] eqn:HM.
    + specialize (Hbudget M eq_refl).
      assert ((M <=? 0) = false) as -> by (apply Z.leb_gt; lia).
      simpl. unfold consumed. rewrite Hcontent, Hmax, Hexp, Hvc. simpl.
      replace (0 `max` (M - (0 + 1))) with (M - 1) by lia. reflexivity.
    + simpl. unfold consumed. rewrite Hcontent, Hmax, Hexp. reflexivity.
  - intros Hle. apply Z.leb_le in Hle. rewrite Hle. reflexivity.
Qed.

Lemma paste_lives_for_ttl_witness :
  (1609459230000 < 1609459200000 + 60 * 1000 ->
   (fetchPaste "p1" (ValidDate 1609459230000)
      {["p1" := Paste.mk "Hello" 1793646000000 (Some 1609459260000) (Some 2) 0]}).1 =
     Resolved (Some (PasteFetchResponse.mk "Hello"
                       ((fun M => M - 1) <$> Some 2)
                       (Some (toISOString (1609459200000 + 60 * 1000)))))) /\
  (1609459200000 + 60 * 1000 <= 1609459230000 ->
   fetchPaste "p1" (ValidDate 1609459230000)
     {["p1" := Paste.mk "Hello" 1793646000000 (Some 1609459260000) (Some 2) 0]} =
     (Resolved None,
      {["p1" := Paste.mk "Hello" 1793646000000 (Some 1609459260000) (Some 2) 0]})).
Proof.
  apply (paste_lives_for_ttl (CreatePasteInput.mk "Hello" (Some 60) (Some 2))
           1609459200000 60 "http://localhost:3000"
           {| cuid := "p1"; dbNow := 1793646000000 |} ∅
           {["p1" := Paste.mk "Hello" 1793646000000 (Some 1609459260000) (Some 2) 0]}
           (PasteCreateResponse.mk "p1" "http://localhost:3000/p/p1")).
  - vm_compute. reflexivity.
  - reflexivity.
  - discriminate.
  - intros M HM. injection HM as <-. lia.
Defined.

Lemma fetchAll_unlimited (id : string) (nows : list Date) :
  forall (db : Table) (p : Paste.t),
    db !! id = Some p ->
    Paste.expiresAt p = None ->
    Paste.maxViews p = None ->
    (fetchAll id nows db).1 =
      replicate (length nows)
        (Resolved (Some (PasteFetchResponse.mk (Paste.content p) None None))) /\
    exists p', (fetchAll id nows db).2 !! id = Some p' /\
      Paste.viewCount p' = Paste.viewCount p + Z.of_nat (length nows).
Proof.
  induction nows as [|now nows IH]; intros db p Hp He Hm.
  - simpl. split; [reflexivity|]. exists p. split; [assumption|lia].
  - rewrite fetchAll_cons, fetchPaste_cases, Hp, He.
    unfold maxViewsReached. rewrite Hm. cbn [fmap option_fmap option_map isPasteExpired fst snd].
    destruct (IH (<[id := increment p]> db) (increment p)
                (lookup_insert_eq _ _ _) He Hm) as (Hrs & p' & Hp' & Hvc).
    split.
    + cbn [length replicate]. rewrite Hrs. unfold consumed. rewrite He, Hm.
      reflexivity.
    + exists p'. split; [assumption|]. rewrite Hvc. cbn [length increment Paste.viewCount].
      lia.
Qed.

(** X8. Without TTL and without view budget a paste never gives out:
    after a creation with neither [ttl_seconds] nor [max_views], every one
    of any number of [fetchPaste] calls, at any [now] (the Invalid Date
    included), resolves to the content with [remaining_views] and
    [expires_at] null, and the [viewCount] ends at the number of calls. *)
Theorem paste_without_limits (input : CreatePasteInput.t) (now : Date)
    (baseUrl : string) (dflt : StoreDefaults) (db db1 : Table)
    (resp : PasteCreateResponse.t) (nows : list Date) :
  createPaste input now baseUrl dflt db = (Resolved resp, db1) ->
  CreatePasteInput.ttl_seconds input = None ->
  CreatePasteInput.max_views input = None ->
  (fetchAll (PasteCreateResponse.id resp) nows db1).1 =
    replicate (length nows)
      (Resolved (Some (PasteFetchResponse.mk (CreatePasteInput.content input)
                         None None))) /\
  exists p', (fetchAll (PasteCreateResponse.id resp) nows db1).2
               !! PasteCreateResponse.id resp = Some p' /\
    Paste.viewCount p' = Z.of_nat (length nows).
Proof.
  intros Hc Httl Hmax.
  destruct (createPaste_resolved _ _ _ _ _ _ _ Hc)
    as (p & _ & -> & -> & Hcontent & _ & Hm & Hvc & Hexp & _).
  rewrite Httl in Hexp. rewrite Hmax in Hm. simpl.
  destruct (fetchAll_unlimited (cuid dflt) nows (<[cuid dflt := p]> db) p
              (lookup_insert_eq _ _ _) Hexp Hm) as (Hrs & p' & Hp' & Hvc').
  rewrite Hcontent in Hrs. split; [assumption|].
  exists p'. split; [assumption|lia].
Qed.

Lemma paste_without_limits_witness :
  (fetchAll "p1" [ValidDate 1; InvalidDate; ValidDate 8640000000000000]
     {["p1" := Paste.mk "Y" 5 None None 0]}).1 =
    replicate (length [ValidDate 1; InvalidDate; ValidDate 8640000000000000])
      (Resolved (Some (PasteFetchResponse.mk "Y" None None))) /\
  exists p',
    (fetchAll "p1" [ValidDate 1; InvalidDate; ValidDate 8640000000000000]
       {["p1" := Paste.mk "Y" 5 None None 0]}).2 !! "p1" = Some p' /\
    Paste.viewCount p' =
      Z.of_nat (length [ValidDate 1; InvalidDate; ValidDate 8640000000000000]).
Proof.
  apply (paste_without_limits (CreatePasteInput.mk "Y" None None) (ValidDate 0)
           "http://localhost:3000" {| cuid := "p1"; dbNow := 5 |} ∅
           {["p1" := Paste.mk "Y" 5 None None 0]}
           (PasteCreateResponse.mk "p1" "http://localhost:3000/p/p1")
           [ValidDate 1; InvalidDate; ValidDate 8640000000000000]).
  - reflexivity.
  - reflexivity.
  - reflexivity.
Defined.

(** ** The read routes *)

(** X9. [GET /api/pastes/:id] does not tell why a paste is unavailable.
    With [now] the instant [getCurrentTime] gives for the request: an id
    without row, a time-expired row and a view-exhausted row all get the
    same answer, 404 with the body Paste not found, and the table stays as
    it was; an available row gets 200 with the result of the consume, and
    the row is stored with one more view. *)
Theorem GET_outcomes (env : ProcessEnv) (wallClock : Z) (hdrs : Headers)
    (id : string) (db : Table) :
  ((db !! id = None \/
    exists p, db !! id = Some p /\
      (TimeExpired p (getCurrentTime env wallClock hdrs) \/ ViewExhausted p)) ->
   GET env wallClock {| headers := hdrs; params_id := id |} db =
     ({| status := 404; body := ErrorBody "Paste not found" |}, db)) /\
  (forall p, db !! id = Some p ->
     Available p (getCurrentTime env wallClock hdrs) ->
     GET env wallClock {| headers := hdrs; params_id := id |} db =
       ({| status := 200; body := PasteBody (consumed p) |},
        <[id := increment p]> db)).
Proof.
  unfold GET. simpl. rewrite fetchPaste_cases.
  set (now := getCurrentTime env wallClock hdrs).
  split.
  - intros [Hnone | (p & Hp & [Ht | Hv])].
    + rewrite Hnone. reflexivity.
    + rewrite Hp. apply isPasteExpired_true in Ht. rewrite Ht. reflexivity.
    + rewrite Hp. apply maxViewsReached_true in Hv. rewrite Hv.
      destruct (isPasteExpired _ now); reflexivity.
  - intros p Hp [Ht Hv]. rewrite Hp.
    destruct (isPasteExpired _ now) eqn:He.
    { apply isPasteExpired_true in He. contradiction. }
    destruct (maxViewsReached p) eqn:Hm.
    { apply maxViewsReached_true in Hm. contradiction. }
    reflexivity.
Qed.

(** X10. Outside deterministic mode the two read routes are one consume
    seen twice: for the same id, table and wall-clock instant, the page
    [/p/:id] shows a content exactly when [GET /api/pastes/:id] answers
    200, it is the content of the JSON body, both leave the same table,
    and when one answers 404 so does the other. *)
Theorem routes_agree_in_real_mode (env : ProcessEnv) (wallClock : Z)
    (hdrs : Headers) (id : string) (db : Table) :
  env !! "TEST_MODE" <> Some "1" ->
  (serve PId env wallClock {| headers := hdrs; params_id := id |} db).2 =
  (serve ApiPastesId env wallClock {| headers := hdrs; params_id := id |} db).2 /\
  match (serve ApiPastesId env wallClock {| headers := hdrs; params_id := id |} db).1,
        (serve PId env wallClock {| headers := hdrs; params_id := id |} db).1 with
  | ServedJson {| status := s; body := PasteBody result |},
    ServedHtml (PasteView content) =>
      s = 200 /\ content = PasteFetchResponse.content result
  | ServedJson {| status := s; body := ErrorBody _ |}, ServedHtml NotFound =>
      s = 404
  | _, _ => False
  end.
Proof.
  intros Hmode. unfold serve, GET, PastePage. simpl.
  assert (getCurrentTime env wallClock hdrs = ValidDate wallClock) as ->.
  { unfold getCurrentTime.
    destruct (decide (env !! "TEST_MODE" = Some "1")); [contradiction|reflexivity]. }
  rewrite fetchPaste_cases, getPasteContent_cases.
  destruct (db !! id) as [p|]; [|simpl; auto].
  destruct (isPasteExpired _ (ValidDate wallClock)); [simpl; auto|].
  destruct (maxViewsReached p); simpl; auto.
Qed.

Lemma routes_agree_in_real_mode_witness :
  (serve PId ∅ 30000
     {| headers := {["x-test-now-ms" := "90000"]}; params_id := "p1" |}
     {["p1" := Paste.mk "Hello" 0 (Some 60000) None 0]}).2 =
  (serve ApiPastesId ∅ 30000
     {| headers := {["x-test-now-ms" := "90000"]}; params_id := "p1" |}
     {["p1" := Paste.mk "Hello" 0 (Some 60000) None 0]}).2 /\
  match (serve ApiPastesId ∅ 30000
           {| headers := {["x-test-now-ms" := "90000"]}; params_id := "p1" |}
           {["p1" := Paste.mk "Hello" 0 (Some 60000) None 0]}).1,
        (serve PId ∅ 30000
           {| headers := {["x-test-now-ms" := "90000"]}; params_id := "p1" |}
           {["p1" := Paste.mk "Hello" 0 (Some 60000) None 0]}).1 with
  | ServedJson {| status := s; body := PasteBody result |},
    ServedHtml (PasteView content) =>
      s = 200 /\ content = PasteFetchResponse.content result
  | ServedJson {| status := s; body := ErrorBody _ |}, ServedHtml NotFound =>
      s = 404
  | _, _ => False
  end.
Proof.
  apply (routes_agree_in_real_mode ∅ 30000 {["x-test-now-ms" := "90000"]} "p1"
           {["p1" := Paste.mk "Hello" 0 (Some 60000) None 0]}).
  rewrite lookup_empty. discriminate.
Defined.

(** ** Reading the override back *)

Lemma digitValue_digit (z : Z) :
  0 <= z < 10 -> digitValue (ascii_of_nat (48 + Z.to_nat z)) = Some z.
Proof.
  intros Hz.
  assert (z = 0 \/ z = 1 \/ z = 2 \/ z = 3 \/ z = 4 \/ z = 5 \/ z = 6 \/
          z = 7 \/ z = 8 \/ z = 9) as Hcases by lia.
  repeat (destruct Hcases as [-> | Hcases]; [reflexivity|]).
  subst z. reflexivity.
Qed.

Lemma digitsOf_app (n : nat) :
  forall (z : Z) (acc s : string),
    digitsOf n z acc ++ s = digitsOf n z (acc ++ s).
Proof.
  induction n as [|n IH]; intros z acc s; simpl; [reflexivity|].
  rewrite IH. reflexivity.
Qed.

Lemma digitsOf_head (n : nat) :
  forall (z : Z) (acc : string),
    (1 <= n)%nat ->
    exists c r d, digitsOf n z acc = String c r /\ digitValue c = Some d.
Proof.
  induction n as [|n IH]; intros z acc Hn; [lia|].
  destruct n as [|m].
  - simpl. eexists _, _, _. split; [reflexivity|].
    apply digitValue_digit. apply Z.mod_pos_bound. lia.
  - cbn [digitsOf]. apply (IH (z / 10)). lia.
Qed.

(** Reading [n] digits written by [digitsOf] and going on with [s]. *)
Lemma parseDigits_digitsOf (n : nat) :
  forall (z : Z) (s : string) (a : option Z),
    parseDigits (digitsOf n z s) a =
    parseDigits s
      match n with
      | O => a
      | S _ => Some (default 0 a * 10 ^ Z.of_nat n + z mod 10 ^ Z.of_nat n)
      end.
Proof.
  induction n as [|n IH]; intros z s a; [reflexivity|].
  cbn [digitsOf]. rewrite IH. cbn [parseDigits].
  rewrite digitValue_digit by (apply Z.mod_pos_bound; lia).
  f_equal. f_equal. destruct n as [|m].
  - change (10 ^ Z.of_nat 1) with 10. lia.
  - cbn [default]. unfold id.
    assert (0 < 10 ^ Z.of_nat (S m)) as Hpow by (apply Z.pow_pos_nonneg; lia).
    replace (10 ^ Z.of_nat (S (S m))) with (10 * 10 ^ Z.of_nat (S m))
      by (rewrite (Nat2Z.inj_succ (S m)), Z.pow_succ_r by lia; reflexivity).
    rewrite (Z.rem_mul_r z 10 (10 ^ Z.of_nat (S m))) by lia. lia.
Qed.

Lemma parseDigits_stop (s : string) (v : Z) :
  (s = "" \/ exists c r, s = String c r /\ digitValue c = None) ->
  parseDigits s (Some v) = Some v.
Proof.
  intros [-> | (c & r & -> & Hc)]; simpl; [reflexivity|].
  rewrite Hc. reflexivity.
Qed.

Lemma parseInt10_digit_first (c : ascii) (r : string) (d : Z) :
  digitValue c = Some d ->
  parseInt10 (String c r) = parseDigits (String c r) None.
Proof.
  intros Hd. unfold parseInt10.
  destruct c as [[] [] [] [] [] [] [] []]; try discriminate Hd; reflexivity.
Qed.

Lemma parseInt10_pad (n : nat) (t : Z) (suffix : string) :
  (1 <= n)%nat ->
  0 <= t < 10 ^ Z.of_nat n ->
  (suffix = "" \/ exists c r, suffix = String c r /\ digitValue c = None) ->
  parseInt10 (pad n t ++ suffix) = Some t /\
  parseInt10 ("-" ++ pad n t ++ suffix) = Some (- t) /\
  pad n t ++ suffix <> "".
Proof.
  intros Hn Ht Hs.
  assert (pad n t ++ suffix = digitsOf n t suffix) as ->
    by (unfold pad; rewrite digitsOf_app; reflexivity).
  assert (parseDigits (digitsOf n t suffix) None = Some t) as Hp.
  { rewrite parseDigits_digitsOf. destruct n as [|m]; [lia|].
    rewrite parseDigits_stop by assumption. simpl default.
    rewrite Z.mod_small by assumption. f_equal; lia. }
  destruct (digitsOf_head n t suffix Hn) as (c & r & d & Heq & Hd).
  repeat apply conj.
  - rewrite Heq, (parseInt10_digit_first c r d Hd), <- Heq. exact Hp.
  - change ("-" ++ digitsOf n t suffix) with (String "-" (digitsOf n t suffix)).
    change (parseInt10 (String "-" (digitsOf n t suffix)))
      with (Z.opp <$> parseDigits (digitsOf n t suffix) None).
    rewrite Hp. reflexivity.
  - rewrite Heq. discriminate.
Qed.

(** X11. In deterministic mode an override written in decimal is read
    back exactly.  When x-test-now-ms holds the [n] decimal digits of [t]
    (leading zeros allowed), alone or followed by anything that does not
    start with a digit, [getCurrentTime] is the instant [t], provided it is
    within the range of a Date; with a minus sign in front it is [-t]. *)
Theorem getCurrentTime_decimal (env : ProcessEnv) (wallClock : Z) (hdrs : Headers)
    (v : string) (n : nat) (t : Z) (suffix : string) :
  env !! "TEST_MODE" = Some "1" ->
  hdrs !! "x-test-now-ms" = Some v ->
  (1 <= n)%nat ->
  0 <= t < 10 ^ Z.of_nat n ->
  t <= maxTime ->
  (suffix = "" \/ exists c r, suffix = String c r /\ digitValue c = None) ->
  (v = pad n t ++ suffix ->
   getCurrentTime env wallClock hdrs = ValidDate t) /\
  (v = "-" ++ pad n t ++ suffix ->
   getCurrentTime env wallClock hdrs = ValidDate (- t)).
Proof.
  intros Hmode Hv Hn Ht Hmax Hs.
  destruct (parseInt10_pad n t suffix Hn Ht Hs) as (Hpos & Hneg & Hne).
  unfold getCurrentTime.
  destruct (decide (env !! "TEST_MODE" = Some "1")); [|contradiction].
  rewrite Hv. split; intros ->.
  - assert (truthy (Some (pad n t ++ suffix)) = true) as ->
      by (destruct (pad n t ++ suffix); [contradiction|reflexivity]).
    change (default "" (Some (pad n t ++ suffix))) with (pad n t ++ suffix).
    rewrite Hpos. unfold newDate.
    assert ((Z.abs t <=? maxTime) = true) as ->; [|reflexivity].
    apply Z.leb_le. lia.
  - change (truthy (Some ("-" ++ pad n t ++ suffix))) with true.
    change (default "" (Some ("-" ++ pad n t ++ suffix)))
      with ("-" ++ pad n t ++ suffix).
    rewrite Hneg. unfold newDate.
    assert ((Z.abs (- t) <=? maxTime) = true) as ->; [|reflexivity].
    apply Z.leb_le. lia.
Qed.

Lemma getCurrentTime_decimal_witness :
  ("1609459200000.5" = pad 13 1609459200000 ++ ".5" ->
   getCurrentTime {["TEST_MODE" := "1"]} 1793646000000
     {["x-test-now-ms" := "1609459200000.5"]} = ValidDate 1609459200000) /\
  ("1609459200000.5" = "-" ++ pad 13 1609459200000 ++ ".5" ->
   getCurrentTime {["TEST_MODE" := "1"]} 1793646000000
     {["x-test-now-ms" := "1609459200000.5"]} = ValidDate (- 1609459200000)).
Proof.
  apply (getCurrentTime_decimal {["TEST_MODE" := "1"]} 1793646000000
           {["x-test-now-ms" := "1609459200000.5"]} "1609459200000.5"
           13%nat 1609459200000 ".5").
  - apply lookup_singleton_eq.
  - apply lookup_singleton_eq.
  - lia.
  - vm_compute. split; [discriminate|reflexivity].
  - vm_compute. discriminate.
  - right. exists "."%char, "5". split; reflexivity.
Defined.

Example pad_is_decimal : pad 13 1609459200000 = "1609459200000".
Proof. reflexivity. Qed.

(** ** Expiry dates *)

(** X12. [calculateExpiresAt] adds 1000 ms per second of TTL and leaves
    the range of a Date as the Invalid Date; a paste is never born
    expired.  For [now] at instant [n]: the result is the instant
    [n + 1000 ttl] when that lies within the range of a Date and the
    Invalid Date otherwise, and for the Invalid Date as [now] it is the
    Invalid Date.  For a TTL of at least 1 and every [now],
    [isPasteExpired] of the date computed is false at [now] itself. *)
Theorem calculateExpiresAt_range :
  (forall ttl n : Z,
     Z.abs (n + ttl * 1000) <= maxTime ->
     calculateExpiresAt ttl (ValidDate n) = ValidDate (n + ttl * 1000)) /\
  (forall ttl n : Z,
     maxTime < Z.abs (n + ttl * 1000) ->
     calculateExpiresAt ttl (ValidDate n) = InvalidDate) /\
  (forall ttl : Z, calculateExpiresAt ttl InvalidDate = InvalidDate) /\
  (forall (ttl : Z) (now : Date),
     1 <= ttl ->
     isPasteExpired (Some (calculateExpiresAt ttl now)) now = false).
Proof.
  unfold calculateExpiresAt. repeat apply conj.
  - intros ttl n H. simpl. apply Z.leb_le in H. rewrite H. reflexivity.
  - intros ttl n H. simpl. apply Z.leb_gt in H. rewrite H. reflexivity.
  - reflexivity.
  - intros ttl [n|] Httl; simpl; [|reflexivity].
    destruct (Z.abs (n + ttl * 1000) <=? maxTime); simpl; [|reflexivity].
    apply Z.leb_gt. lia.
Qed.

(** ** The database client *)

(** X13. [createPrismaClient] connects with the first of
    POSTGRES_PRISMA_URL, POSTGRES_URL and DATABASE_URL that is set to a
    non-empty string, an empty value counting as unset, and throws exactly
    when none of the three is. *)
Theorem createPrismaClient_connectionString (env : ProcessEnv) :
  (forall u, env !! "POSTGRES_PRISMA_URL" = Some u -> u <> "" ->
     connectionString <$> createPrismaClient env = Some u) /\
  (forall u, truthy (env !! "POSTGRES_PRISMA_URL") = false ->
     env !! "POSTGRES_URL" = Some u -> u <> "" ->
     connectionString <$> createPrismaClient env = Some u) /\
  (forall u, truthy (env !! "POSTGRES_PRISMA_URL") = false ->
     truthy (env !! "POSTGRES_URL") = false ->
     env !! "DATABASE_URL" = Some u -> u <> "" ->
     connectionString <$> createPrismaClient env = Some u) /\
  (createPrismaClient env = None <->
   truthy (env !! "POSTGRES_PRISMA_URL") = false /\
   truthy (env !! "POSTGRES_URL") = false /\
   truthy (env !! "DATABASE_URL") = false).
Proof.
  unfold createPrismaClient, orUndefined. split; [|split; [|split]].
  - intros u -> Hu. destruct u; [contradiction|reflexivity].
  - intros u -> -> Hu. destruct u; [contradiction|reflexivity].
  - intros u -> -> -> Hu. destruct u; [contradiction|reflexivity].
  - destruct (truthy (env !! "POSTGRES_PRISMA_URL")) eqn:H1.
    { rewrite H1. split; [discriminate|]. intros (? & _). discriminate. }
    destruct (truthy (env !! "POSTGRES_URL")) eqn:H2.
    { rewrite H2. split; [discriminate|]. intros (_ & ? & _). discriminate. }
    destruct (truthy (env !! "DATABASE_URL")) eqn:H3.
    + split; [discriminate|]. intros (_ & _ & ?). discriminate.
    + split; auto.
Qed.

(** X14. The client is a singleton outside production.  Once the module
    body of [db.ts] has run with NODE_ENV other than production, the
    client it exported is kept in the global, and running the module body
    again, under any environment, yields the same client again and does
    not throw, even when no connection string is set any more. *)
Theorem loadDb_singleton (env : ProcessEnv) (globalPrisma : option PrismaClient)
    (prisma : PrismaClient) (globalPrisma' : option PrismaClient) :
  loadDb env globalPrisma = Some (prisma, globalPrisma') ->
  env !! "NODE_ENV" <> Some "production" ->
  globalPrisma' = Some prisma /\
  forall env' : ProcessEnv,
    exists g, loadDb env' globalPrisma' = Some (prisma, g).
Proof.
  unfold loadDb. intros H Hdev.
  destruct (match globalPrisma with
            | Some client => Some client
            | None => createPrismaClient env
            end) as [c|]; [|discriminate].
  destruct (decide (env !! "NODE_ENV" = Some "production")); [contradiction|].
  injection H as <- <-.
  split; [reflexivity|]. intros env'. eexists. reflexivity.
Qed.

Lemma loadDb_singleton_witness :
  Some {| connectionString := "postgres://localhost/dev"; log := ["error"] |} =
  Some {| connectionString := "postgres://localhost/dev"; log := ["error"] |} /\
  forall env' : ProcessEnv,
    exists g,
      loadDb env'
        (Some {| connectionString := "postgres://localhost/dev"; log := ["error"] |}) =
      Some ({| connectionString := "postgres://localhost/dev"; log := ["error"] |}, g).
Proof.
  apply (loadDb_singleton {["DATABASE_URL" := "postgres://localhost/dev"]} None
           {| connectionString := "postgres://localhost/dev"; log := ["error"] |}
           (Some {| connectionString := "postgres://localhost/dev";
                    log := ["error"] |})).
  - vm_compute. reflexivity.
  - rewrite lookup_singleton_ne; discriminate.
Defined.

(** ** The create route *)

(** X15. [POST /api/pastes] writes only when it answers 201.  Either it
    answers 201, and then the body was JSON that passed validation, the id
    drawn was free, exactly one row was added under it, with the validated
    content and [max_views] and [viewCount] 0, and the url returned is
    protocol://host/p/id with x-forwarded-proto and host taken from the
    request, http and localhost:3000 standing in for an absent or empty
    header; or it answers 400, for a body that is not JSON or fails
    validation, or 500, and the table is left as it was. *)
Theorem POST_outcomes {Json E : Type}
    (validateCreatePaste : Json -> E + CreatePasteInput.t)
    (env : ProcessEnv) (wallClock : Z) (hdrs : Headers) (body : option Json)
    (dflt : StoreDefaults) (db : Table) :
  (exists b data p,
     body = Some b /\ validateCreatePaste b = inr data /\
     db !! cuid dflt = None /\
     POST validateCreatePaste env wallClock hdrs body dflt db =
       ({| post_status := 201;
           post_body := CreatedBody
             (PasteCreateResponse.mk (cuid dflt)
                ((orElse (hdrs !! "x-forwarded-proto") "http" ++ "://" ++
                  orElse (hdrs !! "host") "localhost:3000") ++ "/p/" ++ cuid dflt)) |},
        <[cuid dflt := p]> db) /\
     Paste.content p = CreatePasteInput.content data /\
     Paste.maxViews p = CreatePasteInput.max_views data /\
     Paste.viewCount p = 0) \/
  (post_status (POST validateCreatePaste env wallClock hdrs body dflt db).1 = 400 /\
   (POST validateCreatePaste env wallClock hdrs body dflt db).2 = db /\
   (body = None \/ exists b errors, body = Some b /\ validateCreatePaste b = inl errors)) \/
  (post_status (POST validateCreatePaste env wallClock hdrs body dflt db).1 = 500 /\
   (POST validateCreatePaste env wallClock hdrs body dflt db).2 = db /\
   exists b data, body = Some b /\ validateCreatePaste b = inr data).
Proof.
  unfold POST. destruct body as [b|]; [|right; left; auto].
  destruct (validateCreatePaste b) as [errors|data] eqn:Hv.
  { right. left. repeat apply conj; try reflexivity. right. eauto. }
  match goal with
  | |- context [createPaste data ?now ?baseUrl dflt db] =>
      destruct (createPaste_cases data now baseUrl dflt db)
        as [Hr | (p & Hfresh & Hr & Hcontent & _ & Hmax & Hvc)]; rewrite Hr
  end.
  - right. right. repeat apply conj; try reflexivity. eauto.
  - left. exists b, data, p. repeat apply conj; auto.
Qed.

(** X16. What was posted can be read back.  After [POST /api/pastes]
    answered 201 for a validated input without TTL and with no or a
    positive view budget, [GET /api/pastes/:id] on the id returned answers
    200 with exactly the validated content, [expires_at] null and the
    budget minus one, whatever the environment, the clock and the headers
    of the reading request. *)
Theorem POST_then_GET {Json E : Type}
    (validateCreatePaste : Json -> E + CreatePasteInput.t)
    (env : ProcessEnv) (wallClock : Z) (hdrs : Headers) (b : Json)
    (data : CreatePasteInput.t) (dflt : StoreDefaults) (db db1 : Table)
    (resp : PostResponse E) :
  validateCreatePaste b = inr data ->
  POST validateCreatePaste env wallClock hdrs (Some b) dflt db = (resp, db1) ->
  post_status resp = 201 ->
  CreatePasteInput.ttl_seconds data = None ->
  (forall M, CreatePasteInput.max_views data = Some M -> 1 <= M) ->
  exists result,
    post_body resp = CreatedBody result /\
    forall (env' : ProcessEnv) (wallClock' : Z) (hdrs' : Headers),
      (GET env' wallClock'
         {| headers := hdrs'; params_id := PasteCreateResponse.id result |} db1).1 =
      {| status := 200;
         body := PasteBody
           (PasteFetchResponse.mk (CreatePasteInput.content data)
              ((fun M => M - 1) <$> CreatePasteInput.max_views data) None) |}.
Proof.
  intros Hv Hpost Hstatus Httl Hbudget. unfold POST in Hpost. rewrite Hv in Hpost.
  match type of Hpost with
  | context [createPaste data ?now ?baseUrl dflt db] =>
      destruct (createPaste data now baseUrl dflt db) as [[result|] db'] eqn:Hc
  end; injection Hpost as <- <-; [|discriminate Hstatus].
  exists result. split; [reflexivity|]. intros env' wallClock' hdrs'.
  destruct (createPaste_resolved _ _ _ _ _ _ _ Hc)
    as (p & _ & -> & -> & Hcontent & _ & Hmax & Hvc & Hexp & _).
  rewrite Httl in Hexp. unfold GET. simpl.
  rewrite fetchPaste_cases, lookup_insert_eq, Hexp. simpl.
  unfold maxViewsReached. rewrite Hmax, Hvc.
  destruct (CreatePasteInput.max_views data) as [M|] eqn:HM.
  - specialize (Hbudget M eq_refl).
    assert ((M <=? 0) = false) as -> by (apply Z.leb_gt; lia).
    simpl. unfold consumed. rewrite Hcontent, Hmax, Hexp, Hvc. simpl.
    replace (0 `max` (M - (0 + 1))) with (M - 1) by lia. reflexivity.
  - simpl. unfold consumed. rewrite Hcontent, Hmax, Hexp. reflexivity.
Qed.

Lemma POST_then_GET_witness :
  exists result,
    post_body
      {| post_status := 201;
         post_body := @CreatedBody unit
           (PasteCreateResponse.mk "p1" "https://paste.example/p/p1") |} =
      CreatedBody result /\
    forall (env' : ProcessEnv) (wallClock' : Z) (hdrs' : Headers),
      (GET env' wallClock'
         {| headers := hdrs'; params_id := PasteCreateResponse.id result |}
         {["p1" := Paste.mk "Hello" 5 None (Some 3) 0]}).1 =
      {| status := 200;
         body := PasteBody
           (PasteFetchResponse.mk "Hello" ((fun M => M - 1) <$> Some 3) None) |}.
Proof.
  apply (POST_then_GET
           (fun s : string =>
              if String.eqb s "" then inl tt
              else inr (CreatePasteInput.mk s None (Some 3)))
           ∅ 0
           {["x-forwarded-proto" := "https"; "host" := "paste.example"]}
           "Hello" (CreatePasteInput.mk "Hello" None (Some 3))
           {| cuid := "p1"; dbNow := 5 |} ∅
           {["p1" := Paste.mk "Hello" 5 None (Some 3) 0]}
           {| post_status := 201;
              post_body := @CreatedBody unit
                (PasteCreateResponse.mk "p1" "https://paste.example/p/p1") |}).
  - reflexivity.
  - vm_compute. reflexivity.
  - reflexivity.
  - reflexivity.
  - intros M HM. injection HM as <-. lia.
Defined.

(** ** The override and the page, end to end *)

Lemma append_empty_r (s : string) : s ++ "" = s.
Proof.
  induction s as [|c s IH]; [reflexivity|].
  change (String c s ++ "") with (String c (s ++ "")). rewrite IH. reflexivity.
Qed.

(** X17. In deterministic mode the override, not the wall clock, decides
    expiry on the JSON route.  For a row with [expiresAt = T] and views
    left, a request whose x-test-now-ms holds the decimal digits of [t] is
    answered 200 with the consume when [t < T] and 404 with the table
    untouched when [t >= T], whatever the wall clock reads. *)
Theorem override_decides_expiry (env : ProcessEnv) (wallClock : Z)
    (hdrs : Headers) (id : string) (db : Table) (p : Paste.t) (T : Z)
    (n : nat) (t : Z) :
  env !! "TEST_MODE" = Some "1" ->
  hdrs !! "x-test-now-ms" = Some (pad n t) ->
  (1 <= n)%nat ->
  0 <= t < 10 ^ Z.of_nat n ->
  t <= maxTime ->
  db !! id = Some p ->
  Paste.expiresAt p = Some T ->
  ~ ViewExhausted p ->
  (t < T ->
   GET env wallClock {| headers := hdrs; params_id := id |} db =
     ({| status := 200; body := PasteBody (consumed p) |},
      <[id := increment p]> db)) /\
  (T <= t ->
   GET env wallClock {| headers := hdrs; params_id := id |} db =
     ({| status := 404; body := ErrorBody "Paste not found" |}, db)).
Proof.
  intros Hmode Hv Hn Ht Hmax Hp HT Hviews.
  destruct (parseInt10_pad n t "" Hn Ht (or_introl eq_refl)) as (Hpos & _ & Hne).
  rewrite append_empty_r in Hpos, Hne.
  assert (getCurrentTime env wallClock hdrs = ValidDate t) as Hnow.
  { unfold getCurrentTime.
    destruct (decide (env !! "TEST_MODE" = Some "1")); [|contradiction].
    rewrite Hv.
    assert (truthy (Some (pad n t)) = true) as ->
      by (destruct (pad n t); [contradiction|reflexivity]).
    change (default "" (Some (pad n t))) with (pad n t).
    rewrite Hpos. unfold newDate.
    assert ((Z.abs t <=? maxTime) = true) as ->; [|reflexivity].
    apply Z.leb_le. lia. }
  unfold GET. simpl. rewrite Hnow, fetchPaste_cases, Hp, HT. simpl.
  destruct (maxViewsReached p) eqn:Hm.
  { apply maxViewsReached_true in Hm. contradiction. }
  split; intros Hcmp.
  - apply Z.leb_gt in Hcmp. rewrite Hcmp. reflexivity.
  - apply Z.leb_le in Hcmp. rewrite Hcmp. reflexivity.
Qed.

Lemma override_decides_expiry_witness :
  (1609459230000 < 1609459260000 ->
   GET {["TEST_MODE" := "1"]} 1793646000000
     {| headers := {["x-test-now-ms" := pad 13 1609459230000]};
        params_id := "p1" |}
     {["p1" := Paste.mk "Hello" 0 (Some 1609459260000) None 0]} =
     ({| status := 200;
         body := PasteBody
           (consumed (Paste.mk "Hello" 0 (Some 1609459260000) None 0)) |},
      <["p1" := increment (Paste.mk "Hello" 0 (Some 1609459260000) None 0)]>
        {["p1" := Paste.mk "Hello" 0 (Some 1609459260000) None 0]})) /\
  (1609459260000 <= 1609459230000 ->
   GET {["TEST_MODE" := "1"]} 1793646000000
     {| headers := {["x-test-now-ms" := pad 13 1609459230000]};
        params_id := "p1" |}
     {["p1" := Paste.mk "Hello" 0 (Some 1609459260000) None 0]} =
     ({| status := 404; body := ErrorBody "Paste not found" |},
      {["p1" := Paste.mk "Hello" 0 (Some 1609459260000) None 0]})).
Proof.
  apply (override_decides_expiry {["TEST_MODE" := "1"]} 1793646000000
           {["x-test-now-ms" := pad 13 1609459230000]} "p1"
           {["p1" := Paste.mk "Hello" 0 (Some 1609459260000) None 0]}
           (Paste.mk "Hello" 0 (Some 1609459260000) None 0)
           1609459260000 13%nat 1609459230000).
  - apply lookup_singleton_eq.
  - apply lookup_singleton_eq.
  - lia.
  - vm_compute. split; [discriminate|reflexivity].
  - vm_compute. discriminate.
  - apply lookup_singleton_eq.
  - reflexivity.
  - intros (M & HM & _). discriminate.
Defined.

(** X18. The page [/p/:id] does not tell why a paste is unavailable.  At
    the wall-clock instant of the request: an id without row, a
    time-expired row and a view-exhausted row all get the 404 page of
    [notFound()] and the table stays as it was; an available row gets its
    stored content and is stored with one more view. *)
Theorem PastePage_outcomes (wallClock : Z) (id : string) (db : Table) :
  ((db !! id = None \/
    exists p, db !! id = Some p /\
      (TimeExpired p (ValidDate wallClock) \/ ViewExhausted p)) ->
   PastePage wallClock id db = (NotFound, db)) /\
  (forall p, db !! id = Some p ->
     Available p (ValidDate wallClock) ->
     PastePage wallClock id db =
       (PasteView (Paste.content p), <[id := increment p]> db)).
Proof.
  unfold PastePage. rewrite getPasteContent_cases.
  split.
  - intros [Hnone | (p & Hp & [Ht | Hv])].
    + rewrite Hnone. reflexivity.
    + rewrite Hp. apply isPasteExpired_true in Ht. rewrite Ht. reflexivity.
    + rewrite Hp. apply maxViewsReached_true in Hv. rewrite Hv.
      destruct (isPasteExpired _ (ValidDate wallClock)); reflexivity.
  - intros p Hp [Ht Hv]. rewrite Hp.
    destruct (isPasteExpired _ (ValidDate wallClock)) eqn:He.
    { apply isPasteExpired_true in He. contradiction. }
    destruct (maxViewsReached p) eqn:Hm.
    { apply maxViewsReached_true in Hm. contradiction. }
    reflexivity.
Qed.

(** ** One budget for both routes *)

Lemma withinBudget_run (id : string) (M : Z) (calls : list Call) :
  forall db : Table, withinBudget id M db -> withinBudget id M (run calls db).
Proof.
  induction calls as [|c calls IH]; intros db Hinv; [assumption|].
  rewrite run_cons. apply IH. now apply withinBudget_call.
Qed.

(** X19. [fetchPaste] and [getPasteContent] draw on one budget.  When
    calls run one after the other, each from start to end before the next
    begins: for a row with [maxViews = M] and [viewCount] between 0 and
    [M], in any history of calls, however the two are mixed, the reads of
    its id that resolve to a value number at most [M - viewCount]. *)
Theorem consumes_within_budget (id : string) (calls : list Call) (db : Table)
    (p : Paste.t) (M : Z) :
  db !! id = Some p ->
  Paste.maxViews p = Some M ->
  0 <= Paste.viewCount p <= M ->
  0 <= consumes id calls db <= M - Paste.viewCount p.
Proof.
  intros Hp HM Hvc.
  destruct (run_row id calls db p Hp) as (p' & Hp' & _ & _ & _ & _ & Hcount & Hpos).
  assert (withinBudget id M db) as Hinv by (exists p; auto).
  apply (withinBudget_run id M calls) in Hinv.
  destruct Hinv as (q & Hq & _ & Hb).
  assert (q = p') as -> by congruence. lia.
Qed.

Lemma consumes_within_budget_witness :
  0 <= consumes "p1"
         [CallFetchPaste "p1" (ValidDate 1); CallGetPasteContent "p1" (ValidDate 2);
          CallFetchPaste "p1" (ValidDate 3); CallGetPasteContent "p1" (ValidDate 4)]
         {["p1" := Paste.mk "Hello" 0 None (Some 3) 1]}
    <= 3 - Paste.viewCount (Paste.mk "Hello" 0 None (Some 3) 1).
Proof.
  apply (consumes_within_budget "p1"
           [CallFetchPaste "p1" (ValidDate 1); CallGetPasteContent "p1" (ValidDate 2);
            CallFetchPaste "p1" (ValidDate 3); CallGetPasteContent "p1" (ValidDate 4)]
           {["p1" := Paste.mk "Hello" 0 None (Some 3) 1]}
           (Paste.mk "Hello" 0 None (Some 3) 1) 3).
  - apply lookup_singleton_eq.
  - reflexivity.
  - simpl. lia.
Defined.

(** ** Overlapping calls *)

Lemma interleave_cons (i : nat) (sched : list nat) (st : Flight) :
  interleave (i :: sched) st = interleave sched (stepCall i st).
Proof. reflexivity. Qed.

Lemma stepCall_lookup (i : nat) (calls : list Pending) (db : Table) (c : Pending) :
  calls !! i = Some c ->
  stepCall i (calls, db) = (<[i := (advance c db).1]> calls, (advance c db).2).
Proof.
  intros Hc. unfold stepCall. simpl. rewrite Hc.
  destruct (advance c db) as [c' db']. reflexivity.
Qed.

(** X21. A call that takes its two steps back to back is the call run
    as a whole.  Whatever else is pending, when call [i] stands at its
    [findUnique] and takes the next two steps of the schedule itself, it
    settles to what [fetchPaste] (or [getPasteContent]) gives on the table
    as it was, the table afterwards is the one that function leaves, and
    the other pending calls are untouched. *)
Theorem uninterrupted_call_is_transaction (i : nat) (calls : list Pending)
    (db : Table) (f : Consumer) (id : string) (now : Date) :
  calls !! i = Some (AtFindUnique f id now) ->
  interleave [i; i] (calls, db) =
    (<[i := Settled
              match f with
              | ViaFetchPaste => FetchSettled (fetchPaste id now db).1
              | ViaGetPasteContent => ContentSettled (getPasteContent id now db).1
              end]> calls,
     match f with
     | ViaFetchPaste => (fetchPaste id now db).2
     | ViaGetPasteContent => (getPasteContent id now db).2
     end).
Proof.
  intros Hc. assert (i < length calls)%nat as Hlt by (eapply lookup_lt_Some; eassumption).
  rewrite !interleave_cons. simpl interleave.
  rewrite (stepCall_lookup i calls db _ Hc).
  rewrite fetchPaste_cases, getPasteContent_cases.
  unfold advance at 1 2. unfold findUnique.
  destruct (db !! id) as [p|] eqn:Hp.
  - destruct (isPasteExpired _ now).
    { cbn [fst snd]. erewrite stepCall_lookup by (apply list_lookup_insert_eq; assumption).
      cbn [advance fst snd]. rewrite list_insert_insert_eq. destruct f; reflexivity. }
    destruct (maxViewsReached p).
    { cbn [fst snd]. erewrite stepCall_lookup by (apply list_lookup_insert_eq; assumption).
      cbn [advance fst snd]. rewrite list_insert_insert_eq. destruct f; reflexivity. }
    cbn [fst snd]. erewrite stepCall_lookup by (apply list_lookup_insert_eq; assumption).
    unfold advance, update_increment. rewrite Hp. cbn [fst snd].
    rewrite list_insert_insert_eq. destruct f; reflexivity.
  - cbn [fst snd]. erewrite stepCall_lookup by (apply list_lookup_insert_eq; assumption).
    cbn [advance fst snd]. rewrite list_insert_insert_eq. destruct f; reflexivity.
Qed.

Lemma uninterrupted_call_is_transaction_witness :
  interleave [1; 1]%nat
    ([AtFindUnique ViaGetPasteContent "p1" (ValidDate 5);
      AtFindUnique ViaFetchPaste "p1" (ValidDate 10)],
     {["p1" := Paste.mk "Hello" 0 (Some 60000) (Some 2) 0]}) =
    (<[1%nat := Settled
              (FetchSettled
                 (fetchPaste "p1" (ValidDate 10)
                    {["p1" := Paste.mk "Hello" 0 (Some 60000) (Some 2) 0]}).1)]>
       [AtFindUnique ViaGetPasteContent "p1" (ValidDate 5);
        AtFindUnique ViaFetchPaste "p1" (ValidDate 10)],
     (fetchPaste "p1" (ValidDate 10)
        {["p1" := Paste.mk "Hello" 0 (Some 60000) (Some 2) 0]}).2).
Proof.
  apply (uninterrupted_call_is_transaction 1
           [AtFindUnique ViaGetPasteContent "p1" (ValidDate 5);
            AtFindUnique ViaFetchPaste "p1" (ValidDate 10)]
           {["p1" := Paste.mk "Hello" 0 (Some 60000) (Some 2) 0]}
           ViaFetchPaste "p1" (ValidDate 10)).
  reflexivity.
Defined.

(** C2. Two [fetchPaste] calls overlap on a fresh paste with
    [maxViews = 1]: both run [findUnique] before either runs [update].
    Both pass the view check on the [viewCount] 0 they read, both
    increment, and both resolve to a result; the stored [viewCount] ends
    at 2.  The claim allows one result, one null and a [viewCount] of 1,
    which is what the same two calls give when they run one after the
    other. *)
Theorem overlapping_fetchPaste_admits_two :
  interleave [0; 1; 0; 1]%nat
    ([AtFindUnique ViaFetchPaste "p1" (ValidDate 1609459200000);
      AtFindUnique ViaFetchPaste "p1" (ValidDate 1609459200000)],
     {["p1" := Paste.mk "Hello" 1609459200000 None (Some 1) 0]}) =
    ([Settled (FetchSettled
                 (Resolved (Some (PasteFetchResponse.mk "Hello" (Some 0) None))));
      Settled (FetchSettled
                 (Resolved (Some (PasteFetchResponse.mk "Hello" (Some 0) None))))],
     {["p1" := Paste.mk "Hello" 1609459200000 None (Some 1) 2]}) /\
  interleave [0; 0; 1; 1]%nat
    ([AtFindUnique ViaFetchPaste "p1" (ValidDate 1609459200000);
      AtFindUnique ViaFetchPaste "p1" (ValidDate 1609459200000)],
     {["p1" := Paste.mk "Hello" 1609459200000 None (Some 1) 0]}) =
    ([Settled (FetchSettled
                 (Resolved (Some (PasteFetchResponse.mk "Hello" (Some 0) None))));
      Settled (FetchSettled (Resolved None))],
     {["p1" := Paste.mk "Hello" 1609459200000 None (Some 1) 1]}).
Proof.
  split; vm_compute; reflexivity.
Qed.

(** C1. A paste is created with [max_views = 1]; a [fetchPaste] and a
    [getPasteContent] on it overlap, both reading before either writes.
    The table they leave holds the row with [maxViews] 1 and [viewCount]
    2: the bound [viewCount <= maxViews] of the claim is broken. *)
Theorem overlapping_reads_exceed_maxViews :
  exists p,
    (interleave [0; 1; 0; 1]%nat
       ([AtFindUnique ViaFetchPaste "p1" (ValidDate 1609459200000);
         AtFindUnique ViaGetPasteContent "p1" (ValidDate 1609459200000)],
        (createPaste (CreatePasteInput.mk "Hello" None (Some 1))
           (ValidDate 1609459200000) "http://localhost:3000"
           {| cuid := "p1"; dbNow := 1609459200000 |} ∅).2)).2 !! "p1" = Some p /\
    Paste.maxViews p = Some 1 /\
    Paste.viewCount p = 2.
Proof.
  exists (Paste.mk "Hello" 1609459200000 None (Some 1) 2).
  repeat apply conj; vm_compute; reflexivity.
Qed.

Lemma advance_remainingNotNegative (c : Pending) (db : Table) :
  remainingNotNegative c -> remainingNotNegative (advance c db).1.
Proof.
  intros Hc. destruct c as [f id now | f id | s]; simpl.
  - destruct (db !! id) as [p|]; [|destruct f; exact I].
    destruct (isPasteExpired _ now); [destruct f; exact I|].
    destruct (maxViewsReached p); [destruct f; exact I|exact I].
  - unfold update_increment. destruct (db !! id) as [p|]; [|destruct f; exact I].
    destruct f; simpl; [|exact I].
    destruct (Paste.maxViews p); simpl; intros k Hk; [|discriminate].
    injection Hk as <-. lia.
  - exact Hc.
Qed.

Lemma stepCall_remainingNotNegative (i : nat) (st : Flight) :
  Forall remainingNotNegative st.1 ->
  Forall remainingNotNegative (stepCall i st).1.
Proof.
  intros Hall. destruct st as [calls db].
  destruct (calls !! i) as [c|] eqn:Hc.
  - rewrite (stepCall_lookup i calls db c Hc). simpl.
    apply Forall_insert; [assumption|].
    apply advance_remainingNotNegative.
    rewrite Forall_forall in Hall. apply Hall.
    eapply list_elem_of_lookup_2. eassumption.
  - unfold stepCall. simpl. rewrite Hc. assumption.
Qed.

(** X22. However calls overlap, no [fetchPaste] reports a negative
    [remaining_views]: for every schedule of any pending calls on any
    table, every settled [fetchPaste] result has [remaining_views] null or
    at least 0, also when the [viewCount] it read back has passed
    [maxViews]. *)
Theorem remaining_views_never_negative (sched : list nat) (calls : list Pending)
    (db : Table) :
  Forall remainingNotNegative calls ->
  Forall remainingNotNegative (interleave sched (calls, db)).1.
Proof.
  revert calls db. induction sched as [|i sched IH]; intros calls db Hall.
  - exact Hall.
  - rewrite interleave_cons.
    pose proof (stepCall_remainingNotNegative i (calls, db) Hall) as Hstep.
    destruct (stepCall i (calls, db)) as [calls' db']. apply IH. exact Hstep.
Qed.

Lemma remaining_views_never_negative_witness :
  Forall remainingNotNegative
    (interleave [0; 1; 2; 0; 1; 2]%nat
       ([AtFindUnique ViaFetchPaste "p1" (ValidDate 1);
         AtFindUnique ViaFetchPaste "p1" (ValidDate 2);
         AtFindUnique ViaFetchPaste "p1" (ValidDate 3)],
        {["p1" := Paste.mk "Hello" 0 None (Some 1) 0]})).1.
Proof.
  apply (remaining_views_never_negative [0; 1; 2; 0; 1; 2]%nat
           [AtFindUnique ViaFetchPaste "p1" (ValidDate 1);
            AtFindUnique ViaFetchPaste "p1" (ValidDate 2);
            AtFindUnique ViaFetchPaste "p1" (ValidDate 3)]
           {["p1" := Paste.mk "Hello" 0 None (Some 1) 0]}).
  repeat constructor.
Defined.

Example overlapping_three_on_budget_one :
  (interleave [0; 1; 2; 0; 1; 2]%nat
     ([AtFindUnique ViaFetchPaste "p1" (ValidDate 1);
       AtFindUnique ViaFetchPaste "p1" (ValidDate 2);
       AtFindUnique ViaFetchPaste "p1" (ValidDate 3)],
      {["p1" := Paste.mk "Hello" 0 None (Some 1) 0]})).2
  = {["p1" := Paste.mk "Hello" 0 None (Some 1) 3]}.
Proof. vm_compute. reflexivity. Qed.
